(** * HTTP/2 frame codec ([frame/frame.go]): shallow embedding and properties

    The Go package [frame] serialises and parses HTTP/2 frames through
    [encoding/binary] with [binary.BigEndian].  Integers are modelled as [Z]
    with the wrap-around of their Go type written out, byte streams as
    [list Z] (one element per byte), the [io.Reader] as the list of bytes
    still to be consumed, and the [io.Writer] as an in-memory buffer to which
    bytes are appended.  A run-time panic of the Go program (index or slice
    bounds out of range) is an explicit outcome of the model. *)

From Stdlib Require Import String ZArith List Bool Lia.
Import ListNotations.
Open Scope Z_scope.

(** ** Outcomes of a Go call *)

(** The two errors [io.ReadFull] can return on an in-memory source. *)
Inductive error : Type :=
| EOF              (* io.EOF: no byte could be read *)
| ErrUnexpectedEOF (* io.ErrUnexpectedEOF: some bytes, fewer than asked *).

(** Run-time panics reachable in [frame.go]. *)
Inductive panic : Type :=
| IndexOutOfRange  (* s[i] with i >= len(s) *)
| SliceOutOfRange  (* s[:n] with n < 0 or n > cap(s) *).

Inductive result (A : Type) : Type :=
| Ok (a : A)
| Err (e : error)
| Panic (p : panic).
Arguments Ok {A} a.
Arguments Err {A} e.
Arguments Panic {A} p.

(** ** Fixed-width integers *)

Definition wrap32 (x : Z) : Z := x mod 2 ^ 32.

Definition is_u8 (x : Z) : bool := (0 <=? x) && (x <? 2 ^ 8).
Definition is_u32 (x : Z) : bool := (0 <=? x) && (x <? 2 ^ 32).

(** [s[i]] on a Go slice. *)
Definition slice_index {A : Type} (s : list A) (i : Z) : result A :=
  if i <? 0 then Panic IndexOutOfRange
  else match nth_error s (Z.to_nat i) with
       | Some a => Ok a
       | None => Panic IndexOutOfRange
       end.

(** [s[:n]] on a slice whose capacity equals its length
    (the result of [make([]byte, len)]). *)
Definition slice_to {A : Type} (s : list A) (n : Z) : result (list A) :=
  if (n <? 0) || (Z.of_nat (length s) <? n) then Panic SliceOutOfRange
  else Ok (firstn (Z.to_nat n) s).

(** ** Frame types and names *)

Definition DataFrameType : Z := 0x0.
Definition HeadersFrameType : Z := 0x1.
Definition PriorityFrameType : Z := 0x2.
Definition RstStreamFrameType : Z := 0x3.
Definition SettingsFrameType : Z := 0x4.
Definition PushPromiseFrameType : Z := 0x5.
Definition PingFrameType : Z := 0x6.
Definition GoAwayFrameType : Z := 0x7.
Definition WindowUpdateFrameType : Z := 0x8.
Definition ContinuationFrameType : Z := 0x9.

Definition frame_names : list string :=
  [ "DATA"; "HEADERS"; "PRIORITY"; "RST_STREAM"; "SETTINGS";
    "PUSH_PROMISE"; "PING"; "GOAWAY"; "WINDOW_UPDATE"; "CONTINUATION" ]%string.

(** [func FrameName(i uint8) string]: [return names[i]]. *)
Definition FrameName (i : Z) : result string := slice_index frame_names i.

(** ** Error codes (RST_STREAM and GOAWAY) *)

Definition NO_ERROR : Z := 0.
Definition PROTOCOL_ERROR : Z := 1.
Definition INTERNAL_ERROR : Z := 2.
Definition FLOW_CONTROL_ERROR : Z := 3.
Definition SETTINGS_TIMEOUT : Z := 4.
Definition STREAM_CLOSED : Z := 5.
Definition FRAME_SIZE_ERROR : Z := 6.
Definition REFUSED_STREAM : Z := 7.
Definition CANCEL : Z := 8.
Definition COMPRESSION_ERROR : Z := 9.
Definition CONNECT_ERROR : Z := 10.
Definition ENHANCE_YOUR_CALM : Z := 11.
Definition INADEQUATE_SECURITY : Z := 12.

(** The constants of the [ErrorCode] block, in declaration order. *)
Definition ErrorCode_constants : list (string * Z) :=
  [ ("NO_ERROR", NO_ERROR); ("PROTOCOL_ERROR", PROTOCOL_ERROR);
    ("INTERNAL_ERROR", INTERNAL_ERROR);
    ("FLOW_CONTROL_ERROR", FLOW_CONTROL_ERROR);
    ("SETTINGS_TIMEOUT", SETTINGS_TIMEOUT); ("STREAM_CLOSED", STREAM_CLOSED);
    ("FRAME_SIZE_ERROR", FRAME_SIZE_ERROR); ("REFUSED_STREAM", REFUSED_STREAM);
    ("CANCEL", CANCEL); ("COMPRESSION_ERROR", COMPRESSION_ERROR);
    ("CONNECT_ERROR", CONNECT_ERROR); ("ENHANCE_YOUR_CALM", ENHANCE_YOUR_CALM);
    ("INADEQUATE_SECURITY", INADEQUATE_SECURITY) ]%string.

(** The table local to [ErrorCode.String], entry for entry. *)
Definition error_names : list string :=
  [ "NO_ERROR"; "PROTOCOL_ERROR"; "PROTOCOL_ERROR"; "INTERNAL_ERROR";
    "FLOW_CONTROL_ERROR"; "SETTINGS_TIMEOUT"; "STREAM_CLOSED";
    "FRAME_SIZE_ERROR"; "REFUSED_STREAM"; "CANCEL"; "COMPRESSION_ERROR";
    "CONNECT_ERROR"; "ENHANCE_YOUR_CALM"; "INADEQUATE_SECURITY" ]%string.

(** [func (e ErrorCode) String() string]: [return errors[int(e)]]. *)
Definition ErrorCode_String (e : Z) : result string := slice_index error_names e.

(** ** Flags *)

Definition UNSET : Z := 0x0.
Definition END_STREAM : Z := 0x1.
Definition ACK : Z := 0x1.
Definition END_HEADERS : Z := 0x4.
Definition PADDED : Z := 0x8.
Definition PRIORITY : Z := 0x20.

(** ** [encoding/binary], big-endian *)

(** [BigEndian.PutUint32]: [b[0] = byte(v >> 24)], ..., [b[3] = byte(v)]. *)
Definition put_u32 (v : Z) : list Z :=
  [ Z.land (Z.shiftr v 24) 0xff; Z.land (Z.shiftr v 16) 0xff;
    Z.land (Z.shiftr v 8) 0xff; Z.land v 0xff ].

(** [BigEndian.Uint32]:
    [uint32(b[3]) | uint32(b[2])<<8 | uint32(b[1])<<16 | uint32(b[0])<<24]. *)
Definition get_u32 (b : list Z) : Z :=
  match b with
  | [b0; b1; b2; b3] =>
      Z.lor (Z.lor (Z.lor b3 (Z.shiftl b2 8)) (Z.shiftl b1 16)) (Z.shiftl b0 24)
  | _ => 0
  end.

Definition put_u8 (v : Z) : list Z := [Z.land v 0xff].

Definition get_u8 (b : list Z) : Z :=
  match b with
  | [b0] => b0
  | _ => 0
  end.

(** *** The reader *)

(** An [io.Reader] over memory: the bytes not yet consumed. *)
Definition Reader : Type := list Z.

(** A computation that reads from the source. *)
Definition M (A : Type) : Type := Reader -> result (A * Reader).

Definition ret {A : Type} (a : A) : M A := fun r => Ok (a, r).

Definition bind {A B : Type} (m : M A) (k : A -> M B) : M B :=
  fun r =>
    match m r with
    | Ok (a, r') => k a r'
    | Err e => Err e
    | Panic p => Panic p
    end.

Definition lift {A : Type} (x : result A) : M A :=
  fun r =>
    match x with
    | Ok a => Ok (a, r)
    | Err e => Err e
    | Panic p => Panic p
    end.

Declare Scope go_scope.
Delimit Scope go_scope with go.
Notation "x <- m ;; k" := (bind m (fun x => k))
  (at level 61, m at next level, right associativity) : go_scope.
Open Scope go_scope.

(** [io.ReadFull(r, buf)] with [len(buf) = n]: nothing is asked of the source
    when [n = 0]; [io.EOF] when no byte is left; [io.ErrUnexpectedEOF] when
    the source ends before [n] bytes. *)
Definition ReadFull (n : Z) : M (list Z) :=
  fun r =>
    if n <=? 0 then Ok ([], r)
    else if Z.of_nat (length r) =? 0 then Err EOF
    else if Z.of_nat (length r) <? n then Err ErrUnexpectedEOF
    else Ok (firstn (Z.to_nat n) r, skipn (Z.to_nat n) r).

(** [binary.Read(r, binary.BigEndian, &x)] for [x] of kind uint8, uint32 and
    for [x] a byte slice of length [n] (the slice's length fixes how many
    bytes are read). *)
Definition Read_u8 : M Z := b <- ReadFull 1 ;; ret (get_u8 b).
Definition Read_u32 : M Z := b <- ReadFull 4 ;; ret (get_u32 b).
Definition Read_bytes (n : Z) : M (list Z) := ReadFull n.

(** *** The writer *)

(** An [io.Writer] over memory ([bytes.Buffer]): what has been written so
    far.  Its [Write] never returns an error, so the [err != nil] branches of
    the [Write] methods are not taken. *)
Definition Writer : Type := list Z.

Definition Write_u8 (w : Writer) (v : Z) : Writer := w ++ put_u8 v.
Definition Write_u32 (w : Writer) (v : Z) : Writer := w ++ put_u32 v.
Definition Write_bytes (w : Writer) (b : list Z) : Writer := w ++ b.

Notation "' p <- m ;; k" := (bind m (fun x => match x with p => k end))
  (at level 61, p pattern, m at next level, right associativity) : go_scope.

(** ** Frame header *)

Module FrameHeader.

(** [type FrameHeader struct]: every field is an unsigned integer of its Go
    width ([Length uint32 // 24bit], [StreamId uint32 // R+31bit]). *)
Record t : Type := mk {
  Length : Z;
  Type_ : Z;
  Flags : Z;
  StreamId : Z
}.

(** The encoded widths of the fields, in declaration order, as
    [encoding/binary] sizes them: uint32, uint8, uint8, uint32. *)
Definition field_sizes : list Z := [4; 1; 1; 4].

(** [binary.Size(FrameHeader{})]. *)
Definition Size : Z := fold_right Z.add 0 field_sizes.

(** [fh.Read(r)]: [binary.Read(r, binary.BigEndian, fh)].  One
    [io.ReadFull] of the struct's size, then the fields in order. *)
Definition Read : M t :=
  b <- ReadFull Size ;;
  ret {| Length := get_u32 (firstn 4 b);
         Type_ := get_u8 (firstn 1 (skipn 4 b));
         Flags := get_u8 (firstn 1 (skipn 5 b));
         StreamId := get_u32 (firstn 4 (skipn 6 b)) |}.

(** [fh.Write(w)]: [binary.Write(w, binary.BigEndian, fh)]. *)
Definition Write (fh : t) (w : Writer) : Writer :=
  w ++ (put_u32 (Length fh) ++ put_u8 (Type_ fh) ++ put_u8 (Flags fh)
        ++ put_u32 (StreamId fh)).

End FrameHeader.

Definition NewFrameHeader (length types flags streamid : Z) : FrameHeader.t :=
  {| FrameHeader.Length := length;
     FrameHeader.Type_ := types;
     FrameHeader.Flags := flags;
     FrameHeader.StreamId := streamid |}.

Import FrameHeader (Length, Type_, Flags, StreamId).

(** ** DATA *)

Module DataFrame.

Record t : Type := mk {
  Header : FrameHeader.t;
  Data : list Z
}.

(** [frame.Read(r)].  The test on the flag compares [Flags&PADDED] with
    [1]; the pad length it reads lives in a variable of the inner block, and
    the slice below is cut with the outer [padLen], which is never
    assigned. *)
Definition Read (frame : t) : M t :=
  let frameLen := Length (Header frame) in
  let padLen := 0 in
  frameLen <-
    (if Z.land (Flags (Header frame)) PADDED =? 1 then
       _padLen <- Read_u8 ;;
       ret (wrap32 (frameLen - 1))
     else ret frameLen) ;;
  data <- Read_bytes frameLen ;;
  d <- lift (slice_to data (Z.of_nat (length data) - padLen)) ;;
  ret {| Header := Header frame; Data := d |}.

Definition Write (frame : t) (w : Writer) : Writer :=
  let w := FrameHeader.Write (Header frame) w in
  Write_bytes w (Data frame).

End DataFrame.

Definition NewDataFrame (flags streamId : Z) : DataFrame.t :=
  let length := 0 in
  let fh := NewFrameHeader length DataFrameType flags streamId in
  {| DataFrame.Header := fh; DataFrame.Data := [] |}.

(** ** HEADERS *)

Module HeadersFrame.

(** [Headers http.Header] is a [map[string][]string]; no method of the codec
    reads or writes it on the wire. *)
Record t : Type := mk {
  Header : FrameHeader.t;
  Priority : Z;
  HeaderBlock : list Z;
  Headers : list (string * list string)
}.

Definition Read (frame : t) : M t :=
  let frameLen := Length (Header frame) in
  let padLen := 0 in
  '(padLen, frameLen) <-
    (if Z.land (Flags (Header frame)) PADDED =? PADDED then
       padding <- Read_u8 ;;
       ret (padding, wrap32 (frameLen - 1))
     else ret (padLen, frameLen)) ;;
  '(priority, frameLen) <-
    (if Z.land (Flags (Header frame)) PRIORITY =? PRIORITY then
       p <- Read_u32 ;;
       ret (p, wrap32 (frameLen - 4))
     else ret (Priority frame, frameLen)) ;;
  data <- Read_bytes frameLen ;;
  hb <- lift (slice_to data (Z.of_nat (length data) - padLen)) ;;
  ret {| Header := Header frame; Priority := priority;
         HeaderBlock := hb; Headers := Headers frame |}.

Definition Write (frame : t) (w : Writer) : Writer :=
  let w := FrameHeader.Write (Header frame) w in
  let w := if Z.land (Flags (Header frame)) PRIORITY =? PRIORITY
           then Write_u32 w (Priority frame) else w in
  Write_bytes w (HeaderBlock frame).

End HeadersFrame.

Definition NewHeadersFrame (flags streamId : Z) : HeadersFrame.t :=
  let length := 0 in
  let fh := NewFrameHeader length HeadersFrameType flags streamId in
  {| HeadersFrame.Header := fh; HeadersFrame.Priority := 0;
     HeadersFrame.HeaderBlock := []; HeadersFrame.Headers := [] |}.

(** ** RST_STREAM *)

Module RstStreamFrame.

Record t : Type := mk {
  Header : FrameHeader.t;
  ErrorCode : Z
}.

Definition Read (frame : t) : M t :=
  e <- Read_u32 ;;
  ret {| Header := Header frame; ErrorCode := e |}.

Definition Write (frame : t) (w : Writer) : Writer :=
  let w := FrameHeader.Write (Header frame) w in
  Write_u32 w (ErrorCode frame).

End RstStreamFrame.

Definition NewRstStreamFrame (errorCode streamId : Z) : RstStreamFrame.t :=
  let length := 4 in
  let flags := 0 in
  let fh := NewFrameHeader length RstStreamFrameType flags streamId in
  {| RstStreamFrame.Header := fh; RstStreamFrame.ErrorCode := errorCode |}.

(** ** SETTINGS *)

Definition DEFAULT_WINDOW_SIZE : Z := 65535.

(** [type SettingsId uint8]. *)
Definition SETTINGS_HEADER_TABLE_SIZE : Z := 1.
Definition SETTINGS_ENABLE_PUSH : Z := 2.
Definition SETTINGS_MAX_FRAME_SIZE : Z := 5.
Definition SETTINGS_MAX_HEADER_LIST_SIZE : Z := 6.

Record Setting : Type := mkSetting {
  SettingsId : Z;
  Value : Z
}.

Module SettingsFrame.

Record t : Type := mk {
  Header : FrameHeader.t;
  Settings : list Setting
}.

(** The body of [for niv := frame.Length / 5; niv > 0; niv--]: one
    [SettingsId] (uint8), one [Value] (uint32), appended to
    [frame.Settings]. *)
Fixpoint read_loop (niv : nat) (settings : list Setting) : M (list Setting) :=
  match niv with
  | O => ret settings
  | S niv' =>
      id <- Read_u8 ;;
      v <- Read_u32 ;;
      read_loop niv' (settings ++ [ {| SettingsId := id; Value := v |} ])
  end.

Definition Read (frame : t) : M t :=
  ss <- read_loop (Z.to_nat (Length (Header frame) / 5)) (Settings frame) ;;
  ret {| Header := Header frame; Settings := ss |}.

(** The body of [for _, setting := range frame.Settings]. *)
Fixpoint write_loop (settings : list Setting) (w : Writer) : Writer :=
  match settings with
  | [] => w
  | setting :: rest =>
      let w := Write_u8 w (SettingsId setting) in
      let w := Write_u32 w (Value setting) in
      write_loop rest w
  end.

Definition Write (frame : t) (w : Writer) : Writer :=
  let w := FrameHeader.Write (Header frame) w in
  write_loop (Settings frame) w.

End SettingsFrame.

(** [NewSettingsFrame(flags, setting, streamId)].  [setting] is a Go map; its
    entries are given here in the order in which [range] yields them. *)
Definition NewSettingsFrame (flags : Z) (setting : list (Z * Z)) (streamId : Z)
  : SettingsFrame.t :=
  let settings :=
    map (fun '(id, val) => {| SettingsId := id; Value := val |}) setting in
  let length := wrap32 (5 * Z.of_nat (List.length settings)) in
  let fh := NewFrameHeader length SettingsFrameType flags streamId in
  {| SettingsFrame.Header := fh; SettingsFrame.Settings := settings |}.

(** ** GOAWAY *)

Module GoAwayFrame.

Record t : Type := mk {
  Header : FrameHeader.t;
  LastStreamID : Z;
  ErrorCode : Z;
  AdditionalDebugData : list Z (* unsupported *)
}.

(** The third [binary.Read] fills the slice [frame.AdditionalDebugData] as
    it is: as many bytes as the slice already holds. *)
Definition Read (frame : t) : M t :=
  l <- Read_u32 ;;
  e <- Read_u32 ;;
  d <- Read_bytes (Z.of_nat (length (AdditionalDebugData frame))) ;;
  ret {| Header := Header frame; LastStreamID := l; ErrorCode := e;
         AdditionalDebugData := d |}.

Definition Write (frame : t) (w : Writer) : Writer :=
  let w := FrameHeader.Write (Header frame) w in
  let w := Write_u32 w (LastStreamID frame) in
  let w := Write_u32 w (ErrorCode frame) in
  Write_bytes w (AdditionalDebugData frame).

End GoAwayFrame.

Definition NewGoAwayFrame (lastStreamId errorCode streamId : Z) : GoAwayFrame.t :=
  let length := 8 in
  let flags := 0x00 in
  let fh := NewFrameHeader length GoAwayFrameType flags streamId in
  {| GoAwayFrame.Header := fh; GoAwayFrame.LastStreamID := lastStreamId;
     GoAwayFrame.ErrorCode := errorCode;
     GoAwayFrame.AdditionalDebugData := [] |}.

(** ** WINDOW_UPDATE *)

Module WindowUpdateFrame.

Record t : Type := mk {
  Header : FrameHeader.t;
  WindowSizeIncrement : Z
}.

Definition Read (frame : t) : M t :=
  i <- Read_u32 ;;
  ret {| Header := Header frame; WindowSizeIncrement := i |}.

Definition Write (frame : t) (w : Writer) : Writer :=
  let w := FrameHeader.Write (Header frame) w in
  Write_u32 w (WindowSizeIncrement frame).

End WindowUpdateFrame.

Definition NewWindowUpdateFrame (incrementSize streamId : Z)
  : WindowUpdateFrame.t :=
  let length := 4 in
  let flags := 0 in
  let fh := NewFrameHeader length WindowUpdateFrameType flags streamId in
  {| WindowUpdateFrame.Header := fh;
     WindowUpdateFrame.WindowSizeIncrement := incrementSize |}.

(** ** The [Frame] interface *)

(** The values of interface type [Frame]: the six struct types of the package
    that implement [Write], [Read], [Header] and [String]. *)
Inductive Frame : Type :=
| Data (f : DataFrame.t)
| HeadersF (f : HeadersFrame.t)
| RstStream (f : RstStreamFrame.t)
| SettingsF (f : SettingsFrame.t)
| GoAway (f : GoAwayFrame.t)
| WindowUpdate (f : WindowUpdateFrame.t).

Definition Frame_Header (f : Frame) : FrameHeader.t :=
  match f with
  | Data f => DataFrame.Header f
  | HeadersF f => HeadersFrame.Header f
  | RstStream f => RstStreamFrame.Header f
  | SettingsF f => SettingsFrame.Header f
  | GoAway f => GoAwayFrame.Header f
  | WindowUpdate f => WindowUpdateFrame.Header f
  end.

Definition Frame_Write (f : Frame) (w : Writer) : Writer :=
  match f with
  | Data f => DataFrame.Write f w
  | HeadersF f => HeadersFrame.Write f w
  | RstStream f => RstStreamFrame.Write f w
  | SettingsF f => SettingsFrame.Write f w
  | GoAway f => GoAwayFrame.Write f w
  | WindowUpdate f => WindowUpdateFrame.Write f w
  end.

Definition Frame_Read (f : Frame) : M Frame :=
  match f with
  | Data f => f' <- DataFrame.Read f ;; ret (Data f')
  | HeadersF f => f' <- HeadersFrame.Read f ;; ret (HeadersF f')
  | RstStream f => f' <- RstStreamFrame.Read f ;; ret (RstStream f')
  | SettingsF f => f' <- SettingsFrame.Read f ;; ret (SettingsF f')
  | GoAway f => f' <- GoAwayFrame.Read f ;; ret (GoAway f')
  | WindowUpdate f => f' <- WindowUpdateFrame.Read f ;; ret (WindowUpdate f')
  end.

(** ** Decoding a frame of a given kind *)

Inductive FrameKind : Type :=
| KData | KHeaders | KRstStream | KSettings | KGoAway | KWindowUpdate.

Definition kind_of (f : Frame) : FrameKind :=
  match f with
  | Data _ => KData
  | HeadersF _ => KHeaders
  | RstStream _ => KRstStream
  | SettingsF _ => KSettings
  | GoAway _ => KGoAway
  | WindowUpdate _ => KWindowUpdate
  end.

(** [&DataFrame{FrameHeader: fh}] and its five siblings: the struct a reader
    allocates around a header it has just read, every other field at its zero
    value. *)
Definition empty_frame (k : FrameKind) (fh : FrameHeader.t) : Frame :=
  match k with
  | KData => Data {| DataFrame.Header := fh; DataFrame.Data := [] |}
  | KHeaders =>
      HeadersF {| HeadersFrame.Header := fh; HeadersFrame.Priority := 0;
                  HeadersFrame.HeaderBlock := []; HeadersFrame.Headers := [] |}
  | KRstStream =>
      RstStream {| RstStreamFrame.Header := fh; RstStreamFrame.ErrorCode := 0 |}
  | KSettings =>
      SettingsF {| SettingsFrame.Header := fh; SettingsFrame.Settings := [] |}
  | KGoAway =>
      GoAway {| GoAwayFrame.Header := fh; GoAwayFrame.LastStreamID := 0;
                GoAwayFrame.ErrorCode := 0;
                GoAwayFrame.AdditionalDebugData := [] |}
  | KWindowUpdate =>
      WindowUpdate {| WindowUpdateFrame.Header := fh;
                      WindowUpdateFrame.WindowSizeIncrement := 0 |}
  end.

(** Reading one frame of kind [k] with the methods of the package:
    [fh.Read(r)], then [frame.Read(r)] on the struct holding [fh]. *)
Definition decode (k : FrameKind) : M Frame :=
  fh <- FrameHeader.Read ;;
  Frame_Read (empty_frame k fh).

(** ** Well-formed values *)

Definition wf_header (h : FrameHeader.t) : bool :=
  is_u32 (Length h) && is_u8 (Type_ h) && is_u8 (Flags h) && is_u32 (StreamId h).

Definition is_bytes (b : list Z) : bool := forallb is_u8 b.

Definition has_flag (h : FrameHeader.t) (flag : Z) : bool :=
  Z.land (Flags h) flag =? flag.

Definition type_code (f : Frame) : Z :=
  match f with
  | Data _ => DataFrameType
  | HeadersF _ => HeadersFrameType
  | RstStream _ => RstStreamFrameType
  | SettingsF _ => SettingsFrameType
  | GoAway _ => GoAwayFrameType
  | WindowUpdate _ => WindowUpdateFrameType
  end.

(** Number of bytes a [Write] method emits after the header. *)
Definition payload_size (f : Frame) : Z :=
  match f with
  | Data f => Z.of_nat (length (DataFrame.Data f))
  | HeadersF f =>
      (if has_flag (HeadersFrame.Header f) PRIORITY then 4 else 0)
      + Z.of_nat (length (HeadersFrame.HeaderBlock f))
  | RstStream _ => 4
  | SettingsF f => 5 * Z.of_nat (length (SettingsFrame.Settings f))
  | GoAway f => 8 + Z.of_nat (length (GoAwayFrame.AdditionalDebugData f))
  | WindowUpdate _ => 4
  end.

Definition wf_setting (s : Setting) : bool :=
  is_u8 (SettingsId s) && is_u32 (Value s).

(** The fields of the payload are values of their Go types; a HEADERS frame
    without the PRIORITY flag carries no priority, and the [Headers] map,
    which the codec never touches, is empty. *)
Definition wf_payload (f : Frame) : bool :=
  match f with
  | Data f => is_bytes (DataFrame.Data f)
  | HeadersF f =>
      is_bytes (HeadersFrame.HeaderBlock f)
      && (if has_flag (HeadersFrame.Header f) PRIORITY
          then is_u32 (HeadersFrame.Priority f)
          else HeadersFrame.Priority f =? 0)
      && match HeadersFrame.Headers f with [] => true | _ => false end
  | RstStream f => is_u32 (RstStreamFrame.ErrorCode f)
  | SettingsF f => forallb wf_setting (SettingsFrame.Settings f)
  | GoAway f =>
      is_u32 (GoAwayFrame.LastStreamID f) && is_u32 (GoAwayFrame.ErrorCode f)
      && is_bytes (GoAwayFrame.AdditionalDebugData f)
  | WindowUpdate f => is_u32 (WindowUpdateFrame.WindowSizeIncrement f)
  end.

(** A valid frame value: fields in range, the type code of its variant, and a
    length field within 24 bits that counts the payload bytes. *)
Definition valid_frame (f : Frame) : bool :=
  wf_header (Frame_Header f)
  && (Type_ (Frame_Header f) =? type_code f)
  && (Length (Frame_Header f) <=? 2 ^ 24 - 1)
  && (Length (Frame_Header f) =? payload_size f)
  && wf_payload f.





(** ** Sample values *)

(** The header [NewRstStreamFrame(CANCEL, 5)] builds: length 4, type 3, no
    flag, stream 5. *)
Definition sample_header : FrameHeader.t :=
  RstStreamFrame.Header (NewRstStreamFrame CANCEL 5).



(** [NewDataFrame(UNSET, 1)] after [frame.Data = []byte{1, 2, 3}]. *)
Definition sample_data_stale_length : Frame :=
  Data {| DataFrame.Header := DataFrame.Header (NewDataFrame UNSET 1);
          DataFrame.Data := [1; 2; 3] |}.

(** Nine bytes laid out as length (3), type, flags, stream id (4), with the
    top bit of the stream-id word set. *)
Definition sample_nine_bytes : list Z := [0; 0; 4; 3; 0; 0x80; 0; 0; 5].

(** The bytes [FrameHeader.Write] emits for [sample_header], with the top bit
    of the stream-id word set. *)
Definition sample_reserved_bit_set : list Z := [0; 0; 0; 4; 3; 0; 0x80; 0; 0; 5].

(** A SETTINGS header announcing twelve bytes, and two entries of six bytes
    (identifier on two bytes): MAX_CONCURRENT_STREAMS = 100 and
    INITIAL_WINDOW_SIZE = 65535. *)
Definition sample_settings : SettingsFrame.t :=
  {| SettingsFrame.Header := NewFrameHeader 12 SettingsFrameType UNSET 0;
     SettingsFrame.Settings := [] |}.

Definition sample_settings_payload : list Z :=
  [0; 3; 0; 0; 0; 0x64; 0; 4; 0; 0; 0xff; 0xff].

(** A DATA header with the PADDED flag and length 4; the payload is pad
    length 1, two data bytes, one padding byte. *)
Definition sample_padded_data : DataFrame.t :=
  {| DataFrame.Header := NewFrameHeader 4 DataFrameType PADDED 1;
     DataFrame.Data := [] |}.

Definition sample_padded_data_payload : list Z := [1; 0xaa; 0xbb; 0].

(** A HEADERS header with the PADDED flag and length 3; the payload announces
    five bytes of padding and holds two more bytes. *)
Definition sample_overpadded_headers : HeadersFrame.t :=
  {| HeadersFrame.Header := NewFrameHeader 3 HeadersFrameType PADDED 1;
     HeadersFrame.Priority := 0; HeadersFrame.HeaderBlock := [];
     HeadersFrame.Headers := [] |}.

Definition sample_overpadded_payload : list Z := [5; 0xaa; 0xbb].

(** A HEADERS header with the PADDED flag and length 0. *)
Definition sample_padded_empty_headers : HeadersFrame.t :=
  {| HeadersFrame.Header := NewFrameHeader 0 HeadersFrameType PADDED 1;
     HeadersFrame.Priority := 0; HeadersFrame.HeaderBlock := [];
     HeadersFrame.Headers := [] |}.

(** A RST_STREAM header announcing five bytes. *)
Definition sample_rst_length_5 : RstStreamFrame.t :=
  {| RstStreamFrame.Header := NewFrameHeader 5 RstStreamFrameType UNSET 5;
     RstStreamFrame.ErrorCode := 0 |}.


(** ** Reading as consumption of a prefix *)


(** What [io.ReadFull] reports when the source is too short. *)
Definition short_read (bs : list Z) : error :=
  match bs with
  | [] => EOF
  | _ :: _ => ErrUnexpectedEOF
  end.

(** The bytes [SettingsFrame.Write] emits for one entry, and for a list. *)
Definition setting_bytes (s : Setting) : list Z :=
  put_u8 (SettingsId s) ++ put_u32 (Value s).

Definition settings_bytes (ss : list Setting) : list Z :=
  flat_map setting_bytes ss.

(** A HEADERS frame built by [NewHeadersFrame] with the PRIORITY flag. *)
Definition sample_priority_headers : HeadersFrame.t :=
  NewHeadersFrame PRIORITY 1.

(** A reader that cannot panic, whatever the source holds. *)
Definition no_panic {A : Type} (m : M A) : Prop :=
  forall (bs : list Z) (p : panic), m bs <> Panic p.

(** The bytes of a HEADERS frame on stream 1 with the PADDED flag, length 3,
    whose pad-length byte is 5. *)
Definition sample_overpadded_bytes : list Z :=
  FrameHeader.Write (HeadersFrame.Header sample_overpadded_headers) []
  ++ sample_overpadded_payload.

(** ** Rendering of GOAWAY *)

Section Rendering.

(** [Cyan] and [Red] of the package [github.com/Jxck/color], and the two
    calls of [fmt.Sprintf] made for a GOAWAY frame, each with its format
    string fixed: [" frame <length=%v, flags=%#x, stream_id=%v>"] and
    ["\n(last_stream_id=%d, error_code=%s, opaque_data(%q))"]. *)
Variables Cyan Red : string -> string.
Variable Sprintf_header : Z -> Z -> Z -> string.
Variable Sprintf_goaway : Z -> string -> list Z -> string.

(** [fh.String()]. *)
Definition FrameHeader_String (fh : FrameHeader.t) : string :=
  Sprintf_header (Length fh) (Flags fh) (StreamId fh).

(** [frame.String()] for a GOAWAY frame: the arguments of [Sprintf], among
    them [Red(frame.ErrorCode.String())], are evaluated before the call. *)
Definition GoAwayFrame_String (frame : GoAwayFrame.t) : result string :=
  let str := Cyan "GOAWAY" in
  let str := (str ++ FrameHeader_String (GoAwayFrame.Header frame))%string in
  match ErrorCode_String (GoAwayFrame.ErrorCode frame) with
  | Ok name =>
      Ok (str ++ Sprintf_goaway (GoAwayFrame.LastStreamID frame) (Red name)
                   (GoAwayFrame.AdditionalDebugData frame))%string
  | Err e => Err e
  | Panic p => Panic p
  end.

End Rendering.

(** ** What the wire carries of a frame *)






(** * Properties *)

(** ** Big-endian words *)

Lemma lor_add_disjoint (a b k : Z) :
  0 <= k -> 0 <= a < 2 ^ k -> Z.lor a (Z.shiftl b k) = a + b * 2 ^ k.
Proof.
  intros Hk Ha.
  rewrite Z.shiftl_mul_pow2 by lia.
  assert (Hd : Z.land a (b * 2 ^ k) = 0).
  { apply Z.bits_inj'; intros n Hn.
    rewrite Z.land_spec, Z.bits_0.
    destruct (Z.lt_ge_cases n k) as [Hlt | Hge].
    - rewrite Z.mul_pow2_bits_low by lia. apply andb_false_r.
    - rewrite <- (Z.mod_small a (2 ^ k)) by lia.
      rewrite Z.mod_pow2_bits_high by lia. reflexivity. }
  rewrite <- Z.lxor_lor by exact Hd.
  symmetry. apply Z.add_nocarry_lxor. exact Hd.
Qed.

Lemma land_0xff (a : Z) : Z.land a 0xff = a mod 2 ^ 8.
Proof. change 0xff with (Z.ones 8). apply Z.land_ones. lia. Qed.

Lemma is_u8_spec (x : Z) : is_u8 x = true <-> 0 <= x < 256.
Proof. unfold is_u8. rewrite andb_true_iff, Z.leb_le, Z.ltb_lt. reflexivity. Qed.

Lemma is_u32_spec (x : Z) : is_u32 x = true <-> 0 <= x < 4294967296.
Proof. unfold is_u32. rewrite andb_true_iff, Z.leb_le, Z.ltb_lt. reflexivity. Qed.

Lemma get_u32_arith (b0 b1 b2 b3 : Z) :
  0 <= b0 < 256 -> 0 <= b1 < 256 -> 0 <= b2 < 256 -> 0 <= b3 < 256 ->
  get_u32 [b0; b1; b2; b3] = b0 * 2 ^ 24 + b1 * 2 ^ 16 + b2 * 2 ^ 8 + b3.
Proof.
  intros H0 H1 H2 H3. unfold get_u32.
  rewrite (lor_add_disjoint b3 b2 8) by lia.
  rewrite (lor_add_disjoint _ b1 16) by lia.
  rewrite (lor_add_disjoint _ b0 24) by lia.
  lia.
Qed.

Lemma get_put_u32 (x : Z) : is_u32 x = true -> get_u32 (put_u32 x) = x.
Proof.
  rewrite is_u32_spec. intros Hx. unfold put_u32.
  rewrite get_u32_arith; rewrite ?land_0xff, ?Z.shiftr_div_pow2 by lia;
    try (apply Z.mod_pos_bound; lia).
  change (2 ^ 8) with 256; change (2 ^ 16) with 65536;
    change (2 ^ 24) with 16777216.
  Z.to_euclidean_division_equations. lia.
Qed.

Lemma get_put_u8 (x : Z) : is_u8 x = true -> get_u8 (put_u8 x) = x.
Proof.
  rewrite is_u8_spec. intros Hx. unfold put_u8, get_u8.
  rewrite land_0xff. apply Z.mod_small. lia.
Qed.

(** ** Reading back what was written *)

Lemma ReadFull_app (l rest : list Z) :
  ReadFull (Z.of_nat (length l)) (l ++ rest) = Ok (l, rest).
Proof.
  unfold ReadFull. destruct l as [| b l].
  - reflexivity.
  - destruct (Z.leb_spec (Z.of_nat (length (b :: l))) 0) as [H | _];
      [ simpl length in H; lia | ].
    rewrite length_app.
    destruct (Z.eqb_spec (Z.of_nat (length (b :: l) + length rest)) 0) as [H | _];
      [ simpl length in H; lia | ].
    destruct (Z.ltb_spec (Z.of_nat (length (b :: l) + length rest))
                (Z.of_nat (length (b :: l)))) as [H | _]; [ lia | ].
    rewrite Nat2Z.id, firstn_app, skipn_app, Nat.sub_diag, firstn_all, skipn_all.
    simpl. rewrite app_nil_r. reflexivity.
Qed.

Lemma ReadFull_exact (n : Z) (l rest : list Z) :
  n = Z.of_nat (length l) -> ReadFull n (l ++ rest) = Ok (l, rest).
Proof. intros ->. apply ReadFull_app. Qed.

Lemma Read_u8_put (x : Z) (rest : list Z) :
  is_u8 x = true -> Read_u8 (put_u8 x ++ rest) = Ok (x, rest).
Proof.
  intros Hx. unfold Read_u8, bind.
  rewrite (ReadFull_exact 1 (put_u8 x) rest) by reflexivity.
  unfold ret. rewrite get_put_u8 by assumption. reflexivity.
Qed.

Lemma Read_u32_put (x : Z) (rest : list Z) :
  is_u32 x = true -> Read_u32 (put_u32 x ++ rest) = Ok (x, rest).
Proof.
  intros Hx. unfold Read_u32, bind.
  rewrite (ReadFull_exact 4 (put_u32 x) rest) by reflexivity.
  unfold ret. rewrite get_put_u32 by assumption. reflexivity.
Qed.

Lemma FrameHeader_Read_Write (h : FrameHeader.t) (rest : list Z) :
  wf_header h = true ->
  FrameHeader.Read (FrameHeader.Write h [] ++ rest) = Ok (h, rest).
Proof.
  unfold wf_header. rewrite !andb_true_iff. intros [[[HL HT] HF] HS].
  unfold FrameHeader.Read, bind.
  rewrite (ReadFull_exact FrameHeader.Size (FrameHeader.Write h []) rest)
    by reflexivity.
  unfold ret. destruct h as [L T F S].
  cbn [FrameHeader.Length FrameHeader.Type_ FrameHeader.Flags
       FrameHeader.StreamId] in *.
  assert (E : FrameHeader.Write (FrameHeader.mk L T F S) []
              = put_u32 L ++ put_u8 T ++ put_u8 F ++ put_u32 S) by reflexivity.
  rewrite E.
  change (firstn 4 (put_u32 L ++ put_u8 T ++ put_u8 F ++ put_u32 S))
    with (put_u32 L).
  change (firstn 1 (skipn 4 (put_u32 L ++ put_u8 T ++ put_u8 F ++ put_u32 S)))
    with (put_u8 T).
  change (firstn 1 (skipn 5 (put_u32 L ++ put_u8 T ++ put_u8 F ++ put_u32 S)))
    with (put_u8 F).
  change (firstn 4 (skipn 6 (put_u32 L ++ put_u8 T ++ put_u8 F ++ put_u32 S)))
    with (put_u32 S).
  rewrite !get_put_u32, !get_put_u8 by assumption. reflexivity.
Qed.

Lemma slice_to_all {A : Type} (l : list A) :
  slice_to l (Z.of_nat (length l) - 0) = Ok l.
Proof.
  unfold slice_to. rewrite Z.sub_0_r.
  destruct (Z.ltb_spec (Z.of_nat (length l)) 0) as [H | _]; [ lia | ].
  rewrite Z.ltb_irrefl. simpl. rewrite Nat2Z.id, firstn_all. reflexivity.
Qed.

(** [Flags&PADDED] is 0 or 8, whatever the flags. *)
Lemma land_PADDED_neq_1 (flags : Z) : (Z.land flags PADDED =? 1) = false.
Proof.
  apply Z.eqb_neq. intros H.
  assert (Hb : Z.testbit (Z.land flags PADDED) 0 = Z.testbit 1 0)
    by (rewrite H; reflexivity).
  rewrite Z.land_spec in Hb. change (Z.testbit PADDED 0) with false in Hb.
  rewrite andb_false_r in Hb. discriminate Hb.
Qed.


Lemma write_loop_app (ss : list Setting) (w : Writer) :
  SettingsFrame.write_loop ss w = w ++ SettingsFrame.write_loop ss [].
Proof.
  revert w. induction ss as [| s ss IH]; intros w;
    cbn [SettingsFrame.write_loop].
  - now rewrite app_nil_r.
  - rewrite IH. rewrite (IH (Write_u32 (Write_u8 [] _) _)).
    unfold Write_u32, Write_u8. rewrite app_nil_l, <- !app_assoc. reflexivity.
Qed.

Lemma write_loop_length (ss : list Setting) :
  Z.of_nat (length (SettingsFrame.write_loop ss [])) = 5 * Z.of_nat (length ss).
Proof.
  induction ss as [| s ss IH]; [ reflexivity | ].
  cbn [SettingsFrame.write_loop]. rewrite write_loop_app.
  unfold Write_u32, Write_u8. rewrite !length_app.
  cbn [length put_u8 put_u32] in *. lia.
Qed.

Lemma read_loop_write_loop (ss acc : list Setting) (rest : list Z) :
  forallb wf_setting ss = true ->
  SettingsFrame.read_loop (length ss) acc (SettingsFrame.write_loop ss [] ++ rest)
  = Ok (acc ++ ss, rest).
Proof.
  revert acc. induction ss as [| s ss IH]; intros acc Hwf.
  - simpl. unfold ret. now rewrite app_nil_r.
  - simpl in Hwf. apply andb_true_iff in Hwf as [Hs Hss].
    unfold wf_setting in Hs. apply andb_true_iff in Hs as [Hid Hv].
    cbn [length SettingsFrame.write_loop SettingsFrame.read_loop].
    rewrite write_loop_app. unfold Write_u32, Write_u8.
    rewrite app_nil_l, <- !app_assoc.
    unfold bind at 1. rewrite Read_u8_put by assumption.
    unfold bind at 1. rewrite Read_u32_put by assumption.
    rewrite IH by assumption. rewrite <- app_assoc. destruct s; reflexivity.
Qed.




(** ** Round trip *)





(** ** Frame header on the wire *)

(** C1: the header of [NewRstStreamFrame(CANCEL, 5)] is written as the ten
    bytes [00 00 00 04 03 00 00 00 00 05], the length on four bytes; and
    every header, whatever its fields, is written as ten bytes. *)
Theorem FrameHeader_Write_emits_ten_bytes :
  FrameHeader.Write sample_header [] = [0; 0; 0; 4; 3; 0; 0; 0; 0; 5]
  /\ forall (h : FrameHeader.t) (w : Writer),
       length (FrameHeader.Write h w) = (length w + 10)%nat.
Proof.
  split; [ reflexivity | ].
  intros h w. unfold FrameHeader.Write. rewrite length_app. reflexivity.
Qed.

(** C5 (as stated) fails: on nine bytes [FrameHeader.Read] returns
    [io.ErrUnexpectedEOF], and on a complete header whose stream-id word has
    its top bit set the bit is still there in [StreamId]. *)
Lemma FrameHeader_Read_nine_bytes_or_reserved_bit :
  length sample_nine_bytes = 9%nat
  /\ FrameHeader.Read sample_nine_bytes = Err ErrUnexpectedEOF
  /\ exists h, FrameHeader.Read sample_reserved_bit_set = Ok (h, [])
               /\ ~ StreamId h < 2 ^ 31.
Proof.
  split; [ reflexivity | split; [ reflexivity | ] ].
  eexists. split; [ vm_compute; reflexivity | ].
  cbn [StreamId]. lia.
Qed.

Lemma is_bytes_cons (b : Z) (bs : list Z) :
  is_bytes (b :: bs) = true -> 0 <= b < 256 /\ is_bytes bs = true.
Proof.
  unfold is_bytes. cbn [forallb]. rewrite andb_true_iff, is_u8_spec. tauto.
Qed.

(** C5 (as amended): on every input that holds a whole encoded header,
    [FrameHeader.Read] succeeds whether or not the top bit of the stream-id
    word is set, and [StreamId] is that 32-bit word as it stands: below
    [2^32], and at least [2^31] exactly when the input has the bit set. *)
Theorem FrameHeader_Read_keeps_reserved_bit (bs : list Z) :
  is_bytes bs = true ->
  FrameHeader.Size <= Z.of_nat (length bs) ->
  exists (h : FrameHeader.t) (rest : list Z),
    FrameHeader.Read bs = Ok (h, rest)
    /\ StreamId h = get_u32 (firstn 4 (skipn 6 bs))
    /\ 0 <= StreamId h < 2 ^ 32
    /\ (2 ^ 31 <= StreamId h <-> 2 ^ 7 <= nth 6 bs 0).
Proof.
  intros Hb Hlen. change FrameHeader.Size with 10 in Hlen.
  do 10 (destruct bs as [| ? bs]; [ cbn [length] in Hlen; lia | ]).
  clear Hlen.
  repeat match goal with
         | H : is_bytes (_ :: _) = true |- _ =>
             apply is_bytes_cons in H; destruct H as [? H]
         end.
  match goal with
  | |- context [FrameHeader.Read (?a :: ?b :: ?c :: ?d :: ?e :: ?f :: ?g :: ?h
                                   :: ?i :: ?j :: bs)] =>
      change (a :: b :: c :: d :: e :: f :: g :: h :: i :: j :: bs)
        with ([a; b; c; d; e; f; g; h; i; j] ++ bs)
  end.
  unfold FrameHeader.Read, bind.
  rewrite ReadFull_exact by reflexivity.
  eexists; eexists. split; [ reflexivity | ].
  cbn [StreamId firstn skipn app nth].
  rewrite get_u32_arith by assumption.
  lia.
Qed.

(** The amended C5 on the ten bytes of [sample_reserved_bit_set]. *)
Lemma FrameHeader_Read_keeps_reserved_bit_witness :
  is_bytes sample_reserved_bit_set = true
  /\ FrameHeader.Size <= Z.of_nat (length sample_reserved_bit_set)
  /\ exists (h : FrameHeader.t) (rest : list Z),
       FrameHeader.Read sample_reserved_bit_set = Ok (h, rest)
       /\ StreamId h = get_u32 (firstn 4 (skipn 6 sample_reserved_bit_set))
       /\ 0 <= StreamId h < 2 ^ 32
       /\ (2 ^ 31 <= StreamId h <-> 2 ^ 7 <= nth 6 sample_reserved_bit_set 0).
Proof.
  split; [ reflexivity | split; [ vm_compute; discriminate | ] ].
  apply (FrameHeader_Read_keeps_reserved_bit sample_reserved_bit_set).
  - reflexivity.
  - vm_compute; discriminate.
Defined.

(** ** The length field on encode *)

Lemma Frame_Write_payload (f : Frame) :
  exists payload : list Z,
    Frame_Write f [] = FrameHeader.Write (Frame_Header f) [] ++ payload
    /\ Z.of_nat (length payload) = payload_size f.
Proof.
  destruct f as [f | f | f | f | f | f];
    cbn [Frame_Write Frame_Header payload_size].
  - exists (DataFrame.Data f). split; reflexivity.
  - unfold HeadersFrame.Write, has_flag, Write_bytes, Write_u32.
    destruct (Z.land (Flags (HeadersFrame.Header f)) PRIORITY =? PRIORITY).
    + exists (put_u32 (HeadersFrame.Priority f) ++ HeadersFrame.HeaderBlock f).
      split; [ now rewrite app_assoc | ].
      rewrite length_app. cbn [length put_u32]. lia.
    + exists (HeadersFrame.HeaderBlock f). split; reflexivity.
  - exists (put_u32 (RstStreamFrame.ErrorCode f)). split; reflexivity.
  - exists (SettingsFrame.write_loop (SettingsFrame.Settings f) []).
    split; [ unfold SettingsFrame.Write; apply write_loop_app
           | apply write_loop_length ].
  - exists (put_u32 (GoAwayFrame.LastStreamID f)
            ++ put_u32 (GoAwayFrame.ErrorCode f)
            ++ GoAwayFrame.AdditionalDebugData f).
    split.
    + unfold GoAwayFrame.Write, Write_bytes, Write_u32.
      now rewrite <- !app_assoc.
    + rewrite !length_app. cbn [length put_u32]. lia.
  - exists (put_u32 (WindowUpdateFrame.WindowSizeIncrement f)).
    split; reflexivity.
Qed.

(** C6 (as stated) fails: a DATA frame from [NewDataFrame] whose [Data] was
    then set to three bytes is written with length field 0 in its header,
    followed by the three bytes. *)
Lemma Frame_Write_length_not_recomputed :
  exists (h : FrameHeader.t) (payload : list Z),
    FrameHeader.Read (Frame_Write sample_data_stale_length []) = Ok (h, payload)
    /\ Length h = 0
    /\ length payload = 3%nat.
Proof.
  eexists; eexists. split; [ vm_compute; reflexivity | ].
  split; reflexivity.
Qed.

(** C6 (as amended): for every frame value passed to [Write], the header
    that comes out is the frame's own header, so the length field on the
    wire is the [Length] the caller left in it, not a count made by the
    encoder; the bytes after the header number [payload_size], and the two
    agree exactly when the caller's [Length] is the payload size. *)
Theorem Frame_Write_emits_caller_length (f : Frame) :
  wf_header (Frame_Header f) = true ->
  exists (h : FrameHeader.t) (payload : list Z),
    FrameHeader.Read (Frame_Write f []) = Ok (h, payload)
    /\ Length h = Length (Frame_Header f)
    /\ Z.of_nat (length payload) = payload_size f
    /\ (Length h = Z.of_nat (length payload)
        <-> Length (Frame_Header f) = payload_size f).
Proof.
  intros Hh. destruct (Frame_Write_payload f) as [payload [Hw Hn]].
  exists (Frame_Header f), payload. rewrite Hw.
  split; [ now apply FrameHeader_Read_Write | ].
  split; [ reflexivity | ]. split; [ exact Hn | ]. now rewrite Hn.
Qed.

(** The amended C6 on the frame whose [Length] was left at 0. *)
Lemma Frame_Write_emits_caller_length_witness :
  wf_header (Frame_Header sample_data_stale_length) = true
  /\ exists (h : FrameHeader.t) (payload : list Z),
       FrameHeader.Read (Frame_Write sample_data_stale_length [])
       = Ok (h, payload)
       /\ Length h = Length (Frame_Header sample_data_stale_length)
       /\ Z.of_nat (length payload) = payload_size sample_data_stale_length
       /\ (Length h = Z.of_nat (length payload)
           <-> Length (Frame_Header sample_data_stale_length)
               = payload_size sample_data_stale_length).
Proof.
  split; [ reflexivity | ].
  apply (Frame_Write_emits_caller_length sample_data_stale_length).
  reflexivity.
Defined.

(** ** RST_STREAM *)

(** C7 (as stated) fails: with a header announcing five bytes,
    [RstStreamFrame.Read] reads four bytes, returns the frame with error
    code 8 and no error, and leaves the fifth byte in the source. *)
Lemma RstStreamFrame_Read_accepts_length_5 :
  Length (RstStreamFrame.Header sample_rst_length_5) = 5
  /\ RstStreamFrame.Read sample_rst_length_5 [0; 0; 0; 8; 0]
     = Ok ({| RstStreamFrame.Header := RstStreamFrame.Header sample_rst_length_5;
              RstStreamFrame.ErrorCode := CANCEL |}, [0]).
Proof. split; reflexivity. Qed.

(** C7 (as amended): for every RST_STREAM frame, whatever length its header
    declares, [Read] consumes exactly four bytes and stores them as a
    big-endian error code; it never looks at the length, and it fails only
    when the source holds fewer than four bytes. *)
Theorem RstStreamFrame_Read_four_bytes_any_length
  (frame : RstStreamFrame.t) (b0 b1 b2 b3 : Z) (rest : list Z) :
  is_bytes [b0; b1; b2; b3] = true ->
  RstStreamFrame.Read frame (b0 :: b1 :: b2 :: b3 :: rest)
  = Ok ({| RstStreamFrame.Header := RstStreamFrame.Header frame;
           RstStreamFrame.ErrorCode :=
             b0 * 2 ^ 24 + b1 * 2 ^ 16 + b2 * 2 ^ 8 + b3 |}, rest)
  /\ forall short : list Z,
       (length short < 4)%nat ->
       exists e : error, RstStreamFrame.Read frame short = Err e.
Proof.
  intros Hb.
  repeat match goal with
         | H : is_bytes (_ :: _) = true |- _ =>
             apply is_bytes_cons in H; destruct H as [? H]
         end.
  split.
  - unfold RstStreamFrame.Read, Read_u32, bind.
    change (b0 :: b1 :: b2 :: b3 :: rest) with ([b0; b1; b2; b3] ++ rest).
    rewrite ReadFull_exact by reflexivity.
    unfold ret. rewrite get_u32_arith by assumption. reflexivity.
  - intros short Hs.
    do 4 (destruct short as [| ? short];
          [ eexists; vm_compute; reflexivity | ]).
    cbn [length] in Hs. lia.
Qed.

(** The amended C7 on the header announcing five bytes. *)
Lemma RstStreamFrame_Read_four_bytes_any_length_witness :
  is_bytes [0; 0; 0; 8] = true
  /\ (RstStreamFrame.Read sample_rst_length_5 (0 :: 0 :: 0 :: 8 :: [0])
      = Ok ({| RstStreamFrame.Header := RstStreamFrame.Header sample_rst_length_5;
               RstStreamFrame.ErrorCode :=
                 0 * 2 ^ 24 + 0 * 2 ^ 16 + 0 * 2 ^ 8 + 8 |}, [0])
      /\ forall short : list Z,
           (length short < 4)%nat ->
           exists e : error, RstStreamFrame.Read sample_rst_length_5 short = Err e).
Proof.
  split; [ reflexivity | ].
  apply (RstStreamFrame_Read_four_bytes_any_length sample_rst_length_5 0 0 0 8 [0]).
  reflexivity.
Defined.

(** ** SETTINGS entries *)

(** C3: on a SETTINGS header announcing twelve bytes and a payload of two
    six-byte entries, [SettingsFrame.Read] makes 12 / 5 = 2 turns of five
    bytes each (identifier on one byte): it returns the entries
    (0, 0x03000000) and (0x64, 0x00040000) and leaves two bytes unread; and
    [NewSettingsFrame] on a one-entry map declares length 5. *)
Theorem SettingsFrame_Read_five_byte_entries :
  SettingsFrame.Read sample_settings sample_settings_payload
  = Ok ({| SettingsFrame.Header := SettingsFrame.Header sample_settings;
           SettingsFrame.Settings :=
             [ {| SettingsId := 0; Value := 0x03000000 |};
               {| SettingsId := 0x64; Value := 0x00040000 |} ] |},
        [0xff; 0xff])
  /\ Length (SettingsFrame.Header
               (NewSettingsFrame UNSET [(SETTINGS_ENABLE_PUSH, 0)] 0)) = 5.
Proof. split; reflexivity. Qed.

(** ** Padding *)

(** C4: on a DATA header with the PADDED flag and length 4, [DataFrame.Read]
    reads no pad-length byte and trims nothing: the pad-length byte, the two
    data bytes and the padding byte all end up in [Data]. *)
Theorem DataFrame_Read_ignores_PADDED :
  has_flag (DataFrame.Header sample_padded_data) PADDED = true
  /\ DataFrame.Read sample_padded_data sample_padded_data_payload
     = Ok ({| DataFrame.Header := DataFrame.Header sample_padded_data;
              DataFrame.Data := [1; 0xaa; 0xbb; 0] |}, []).
Proof. split; reflexivity. Qed.

(** C8: on a HEADERS header with the PADDED flag whose pad-length byte (5)
    exceeds the two bytes that remain, [HeadersFrame.Read] panics in the
    slice expression; with the PADDED flag and length 0 it returns [io.EOF]
    on an exhausted source and, when bytes of a next frame follow, takes one
    of them for the pad length and runs into the end of the source. *)
Theorem HeadersFrame_Read_overlong_padding_panics :
  HeadersFrame.Read sample_overpadded_headers sample_overpadded_payload
  = Panic SliceOutOfRange
  /\ HeadersFrame.Read sample_padded_empty_headers [] = Err EOF
  /\ HeadersFrame.Read sample_padded_empty_headers
       (FrameHeader.Write sample_header []) = Err ErrUnexpectedEOF.
Proof. repeat split; reflexivity. Qed.

(** ** Names *)

(** C9 (as stated) fails: INADEQUATE_SECURITY is 12, not 13, and code 2
    (INTERNAL_ERROR) renders as [PROTOCOL_ERROR]. *)
Lemma ErrorCode_not_0_to_13_and_String_2 :
  INADEQUATE_SECURITY <> 13
  /\ INTERNAL_ERROR = 2
  /\ ErrorCode_String INTERNAL_ERROR = Ok "PROTOCOL_ERROR"%string
  /\ ErrorCode_String INTERNAL_ERROR <> Ok "INTERNAL_ERROR"%string.
Proof. repeat split; discriminate. Qed.

(** C9 (as amended): the constants of the enumeration have the values 0
    through 12 in order, from NO_ERROR (0) up to INADEQUATE_SECURITY (12),
    and for the codes 0 and 1 [String] returns the name of that code,
    NO_ERROR and PROTOCOL_ERROR. *)
Theorem ErrorCode_values_and_String (e : Z) :
  0 <= e <= 1 ->
  (map snd ErrorCode_constants = map Z.of_nat (seq 0 13)
   /\ nth_error ErrorCode_constants 0 = Some ("NO_ERROR"%string, 0)
   /\ nth_error ErrorCode_constants 12 = Some ("INADEQUATE_SECURITY"%string, 12))
  /\ exists name : string,
       ErrorCode_String e = Ok name
       /\ nth_error ErrorCode_constants (Z.to_nat e) = Some (name, e).
Proof.
  intros He. split; [ repeat split | ].
  assert (Hc : e = 0 \/ e = 1) by lia.
  destruct Hc as [-> | ->]; eexists; split; reflexivity.
Qed.

(** The amended C9 at PROTOCOL_ERROR. *)
Lemma ErrorCode_values_and_String_witness :
  0 <= PROTOCOL_ERROR <= 1
  /\ (map snd ErrorCode_constants = map Z.of_nat (seq 0 13)
      /\ nth_error ErrorCode_constants 0 = Some ("NO_ERROR"%string, 0)
      /\ nth_error ErrorCode_constants 12
         = Some ("INADEQUATE_SECURITY"%string, 12))
  /\ exists name : string,
       ErrorCode_String PROTOCOL_ERROR = Ok name
       /\ nth_error ErrorCode_constants (Z.to_nat PROTOCOL_ERROR)
          = Some (name, PROTOCOL_ERROR).
Proof.
  split; [ vm_compute; split; discriminate | ].
  apply (ErrorCode_values_and_String PROTOCOL_ERROR).
  vm_compute; split; discriminate.
Defined.

(** C10: [FrameName] indexes a table of ten names with the raw type code.
    For every code of type uint8, it returns a name, the entry of the table
    at that index, when the code is at most 9, and for every code from 10 on
    the index is out of range: no name comes back. *)
Theorem FrameName_defined_only_below_10 (i : Z) :
  is_u8 i = true ->
  length frame_names = 10%nat
  /\ (i <= 9 ->
      exists name : string,
        FrameName i = Ok name /\ nth_error frame_names (Z.to_nat i) = Some name)
  /\ (10 <= i -> FrameName i = Panic IndexOutOfRange).
Proof.
  rewrite is_u8_spec. intros Hi. split; [ reflexivity | split ].
  - intros Hlt.
    assert (Hc : i = 0 \/ i = 1 \/ i = 2 \/ i = 3 \/ i = 4 \/ i = 5 \/ i = 6
                 \/ i = 7 \/ i = 8 \/ i = 9) by lia.
    repeat (destruct Hc as [-> | Hc]); try subst i;
      (eexists; split; reflexivity).
  - intros Hge. unfold FrameName, slice_index.
    destruct (Z.ltb_spec i 0) as [H | _]; [ lia | ].
    assert (Hn : nth_error frame_names (Z.to_nat i) = None).
    { apply nth_error_None. change (length frame_names) with 10%nat. lia. }
    rewrite Hn. reflexivity.
Qed.

(** C10 at the first unknown type code. *)
Lemma FrameName_defined_only_below_10_witness :
  is_u8 10 = true
  /\ length frame_names = 10%nat
  /\ (10 <= 9 ->
      exists name : string,
        FrameName 10 = Ok name
        /\ nth_error frame_names (Z.to_nat 10) = Some name)
  /\ (10 <= 10 -> FrameName 10 = Panic IndexOutOfRange).
Proof.
  split; [ reflexivity | ].
  apply (FrameName_defined_only_below_10 10). reflexivity.
Defined.

(** * Further properties of the codec *)

(** ** Readers consume a prefix *)












(** ** Frame header, both directions *)

(** X2: a header whose fields are values of their Go types is read back
    from the bytes [FrameHeader.Write] produced, field for field, and the
    bytes after the header are left in the source. *)
Theorem FrameHeader_roundtrip (h : FrameHeader.t) (w rest : list Z) :
  wf_header h = true ->
  exists hdr : list Z,
    FrameHeader.Write h w = w ++ hdr
    /\ Z.of_nat (length hdr) = FrameHeader.Size
    /\ FrameHeader.Read (hdr ++ rest) = Ok (h, rest).
Proof.
  intros Hh. exists (FrameHeader.Write h []).
  split; [ reflexivity | split; [ reflexivity | ] ].
  now apply FrameHeader_Read_Write.
Qed.

(** X2 on the header of [NewRstStreamFrame(CANCEL, 5)]. *)
Lemma FrameHeader_roundtrip_witness :
  wf_header sample_header = true
  /\ exists hdr : list Z,
       FrameHeader.Write sample_header [1; 2] = [1; 2] ++ hdr
       /\ Z.of_nat (length hdr) = FrameHeader.Size
       /\ FrameHeader.Read (hdr ++ [7]) = Ok (sample_header, [7]).
Proof.
  split; [ reflexivity | ].
  apply (FrameHeader_roundtrip sample_header [1; 2] [7]). reflexivity.
Defined.

Lemma FrameHeader_Read_too_short (bs : list Z) :
  Z.of_nat (length bs) < FrameHeader.Size ->
  FrameHeader.Read bs = Err (short_read bs).
Proof.
  intros Hlen. unfold FrameHeader.Read, bind, ReadFull.
  change (FrameHeader.Size <=? 0) with false. cbv iota.
  destruct bs as [| b bs]; [ reflexivity | ].
  destruct (Z.eqb_spec (Z.of_nat (length (b :: bs))) 0) as [H0 | _];
    [ cbn [length] in H0; lia | ].
  destruct (Z.ltb_spec (Z.of_nat (length (b :: bs))) FrameHeader.Size)
    as [_ | Hge]; [ reflexivity | lia ].
Qed.

(** X3: on a source that ends before the header is complete,
    [FrameHeader.Read] returns [io.EOF] when the source is empty and
    [io.ErrUnexpectedEOF] otherwise; it never returns a partial header. *)
Theorem FrameHeader_Read_short (bs : list Z) :
  Z.of_nat (length bs) < FrameHeader.Size ->
  FrameHeader.Read bs = Err (short_read bs).
Proof. exact (FrameHeader_Read_too_short bs). Qed.

(** X3 on nine bytes. *)
Lemma FrameHeader_Read_short_witness :
  Z.of_nat (length sample_nine_bytes) < FrameHeader.Size
  /\ FrameHeader.Read sample_nine_bytes = Err (short_read sample_nine_bytes).
Proof.
  split; [ reflexivity | ].
  apply (FrameHeader_Read_short sample_nine_bytes). reflexivity.
Defined.

Lemma put_get_u32 (b0 b1 b2 b3 : Z) :
  0 <= b0 < 256 -> 0 <= b1 < 256 -> 0 <= b2 < 256 -> 0 <= b3 < 256 ->
  put_u32 (get_u32 [b0; b1; b2; b3]) = [b0; b1; b2; b3].
Proof.
  intros H0 H1 H2 H3. rewrite get_u32_arith by assumption. unfold put_u32.
  rewrite !land_0xff, !Z.shiftr_div_pow2 by lia.
  change (2 ^ 8) with 256; change (2 ^ 16) with 65536;
    change (2 ^ 24) with 16777216.
  repeat f_equal; Z.to_euclidean_division_equations; lia.
Qed.

Lemma get_u32_range (b0 b1 b2 b3 : Z) :
  0 <= b0 < 256 -> 0 <= b1 < 256 -> 0 <= b2 < 256 -> 0 <= b3 < 256 ->
  is_u32 (get_u32 [b0; b1; b2; b3]) = true.
Proof.
  intros H0 H1 H2 H3. rewrite get_u32_arith by assumption.
  apply is_u32_spec. lia.
Qed.

(** X4: whenever [FrameHeader.Read] succeeds on a source of bytes, the
    header it returns has every field in the range of its Go type, and
    writing that header gives back exactly the bytes that were consumed:
    the source is the written header followed by what the read left. *)
Theorem FrameHeader_Write_after_Read (bs : list Z) (h : FrameHeader.t)
  (rest : list Z) :
  is_bytes bs = true ->
  FrameHeader.Read bs = Ok (h, rest) ->
  wf_header h = true /\ FrameHeader.Write h [] ++ rest = bs.
Proof.
  intros Hb Hr.
  assert (Hlen : FrameHeader.Size <= Z.of_nat (length bs)).
  { destruct (Z.lt_ge_cases (Z.of_nat (length bs)) FrameHeader.Size) as [Hs | Hs];
      [ | lia ].
    rewrite (FrameHeader_Read_too_short bs Hs) in Hr. discriminate Hr. }
  change FrameHeader.Size with 10 in Hlen.
  do 10 (destruct bs as [| ? bs]; [ cbn [length] in Hlen; lia | ]).
  clear Hlen.
  repeat match goal with
         | H : is_bytes (_ :: _) = true |- _ =>
             apply is_bytes_cons in H; destruct H as [? H]
         end.
  match type of Hr with
  | FrameHeader.Read (?a :: ?b :: ?c :: ?d :: ?e :: ?f :: ?g :: ?i :: ?j
                        :: ?k :: bs) = _ =>
      change (a :: b :: c :: d :: e :: f :: g :: i :: j :: k :: bs)
        with ([a; b; c; d; e; f; g; i; j; k] ++ bs) in Hr
  end.
  unfold FrameHeader.Read, bind in Hr.
  rewrite ReadFull_exact in Hr by reflexivity.
  unfold ret in Hr. cbn [firstn skipn app get_u8] in Hr.
  repeat match type of Hr with
         | context [get_u32 ?l] =>
             let w := fresh "w" in remember (get_u32 l) as w
         end.
  injection Hr as <- <-. subst.
  split.
  - unfold wf_header.
    cbn [FrameHeader.Length FrameHeader.Type_ FrameHeader.Flags
         FrameHeader.StreamId].
    rewrite !get_u32_range by assumption.
    repeat match goal with
           | |- context [is_u8 ?x] =>
               rewrite (proj2 (is_u8_spec x)) by assumption
           end.
    reflexivity.
  - unfold FrameHeader.Write.
    cbn [FrameHeader.Length FrameHeader.Type_ FrameHeader.Flags
         FrameHeader.StreamId].
    rewrite !put_get_u32 by assumption.
    unfold put_u8. rewrite !land_0xff.
    rewrite !Z.mod_small by (change (2 ^ 8) with 256; assumption).
    reflexivity.
Qed.

(** X4 on ten bytes with the reserved bit set. *)
Lemma FrameHeader_Write_after_Read_witness :
  is_bytes sample_reserved_bit_set = true
  /\ FrameHeader.Read sample_reserved_bit_set
     = Ok (NewFrameHeader 4 RstStreamFrameType 0 (2 ^ 31 + 5), [])
  /\ wf_header (NewFrameHeader 4 RstStreamFrameType 0 (2 ^ 31 + 5)) = true
  /\ FrameHeader.Write (NewFrameHeader 4 RstStreamFrameType 0 (2 ^ 31 + 5)) []
       ++ []
     = sample_reserved_bit_set.
Proof.
  split; [ reflexivity | split; [ reflexivity | ] ].
  apply (FrameHeader_Write_after_Read sample_reserved_bit_set); reflexivity.
Defined.

(** ** DATA and HEADERS payloads *)

Lemma ReadFull_cases (n : Z) (bs : list Z) :
  0 <= n ->
  ReadFull n bs
  = if Z.of_nat (length bs) <? n then Err (short_read bs)
    else Ok (firstn (Z.to_nat n) bs, skipn (Z.to_nat n) bs).
Proof.
  intros Hn. unfold ReadFull.
  destruct (Z.leb_spec n 0) as [H0 | Hpos].
  - assert (n = 0) by lia. subst n.
    destruct (Z.ltb_spec (Z.of_nat (length bs)) 0); [ lia | reflexivity ].
  - destruct bs as [| b bs].
    + cbn [length Z.of_nat]. rewrite Z.eqb_refl.
      destruct (Z.ltb_spec 0 n); [ reflexivity | lia ].
    + destruct (Z.eqb_spec (Z.of_nat (length (b :: bs))) 0) as [H0 | _];
        [ cbn [length] in H0; lia | ].
      reflexivity.
Qed.

(** X5: for every flag byte, PADDED included, [DataFrame.Read] takes the
    first [Length] bytes of the source as [Data], untouched, and leaves the
    rest; when the source holds fewer than [Length] bytes it returns
    [io.EOF] (empty source) or [io.ErrUnexpectedEOF].  It never panics. *)
Theorem DataFrame_Read_takes_Length_bytes (frame : DataFrame.t) (bs : list Z) :
  0 <= Length (DataFrame.Header frame) ->
  DataFrame.Read frame bs
  = if Z.of_nat (length bs) <? Length (DataFrame.Header frame)
    then Err (short_read bs)
    else Ok ({| DataFrame.Header := DataFrame.Header frame;
                DataFrame.Data :=
                  firstn (Z.to_nat (Length (DataFrame.Header frame))) bs |},
             skipn (Z.to_nat (Length (DataFrame.Header frame))) bs).
Proof.
  intros HL. unfold DataFrame.Read. rewrite land_PADDED_neq_1.
  unfold bind at 1. unfold ret at 1.
  unfold bind at 1. unfold Read_bytes. rewrite ReadFull_cases by exact HL.
  destruct (Z.of_nat (length bs) <? Length (DataFrame.Header frame));
    [ reflexivity | ].
  unfold bind, lift. rewrite slice_to_all. reflexivity.
Qed.

(** X5 on a padded DATA frame. *)
Lemma DataFrame_Read_takes_Length_bytes_witness :
  0 <= Length (DataFrame.Header sample_padded_data)
  /\ DataFrame.Read sample_padded_data (sample_padded_data_payload ++ [9])
     = if Z.of_nat (length (sample_padded_data_payload ++ [9]))
          <? Length (DataFrame.Header sample_padded_data)
       then Err (short_read (sample_padded_data_payload ++ [9]))
       else Ok ({| DataFrame.Header := DataFrame.Header sample_padded_data;
                   DataFrame.Data :=
                     firstn (Z.to_nat (Length (DataFrame.Header
                                                 sample_padded_data)))
                            (sample_padded_data_payload ++ [9]) |},
                skipn (Z.to_nat (Length (DataFrame.Header sample_padded_data)))
                      (sample_padded_data_payload ++ [9])).
Proof.
  split; [ vm_compute; discriminate | ].
  apply (DataFrame_Read_takes_Length_bytes sample_padded_data).
  vm_compute; discriminate.
Defined.

Lemma Read_u8_cons (b : Z) (rest : list Z) : Read_u8 (b :: rest) = Ok (b, rest).
Proof.
  unfold Read_u8, bind. change (b :: rest) with ([b] ++ rest).
  rewrite ReadFull_exact by reflexivity. reflexivity.
Qed.

Lemma slice_to_prefix {A : Type} (l pad : list A) (p : Z) :
  Z.of_nat (length pad) = p ->
  slice_to (l ++ pad) (Z.of_nat (length (l ++ pad)) - p) = Ok l.
Proof.
  intros Hp. unfold slice_to. rewrite length_app.
  replace (Z.of_nat (length l + length pad) - p) with (Z.of_nat (length l))
    by lia.
  destruct (Z.ltb_spec (Z.of_nat (length l)) 0); [ lia | ].
  destruct (Z.ltb_spec (Z.of_nat (length l + length pad)) (Z.of_nat (length l)));
    [ lia | ].
  cbn [orb]. rewrite Nat2Z.id, firstn_app, Nat.sub_diag, firstn_all.
  cbn [firstn]. now rewrite app_nil_r.
Qed.

(** X6: on a HEADERS frame with the PADDED flag whose payload is laid out
    as pad length [p], the 4-byte priority when the PRIORITY flag is set,
    the header block, and [p] bytes of padding, with [Length] counting all
    of it, [HeadersFrame.Read] returns the header block without the pad
    length and without the padding, stores the priority when flagged (and
    leaves it alone otherwise), and consumes exactly the payload. *)
Theorem HeadersFrame_Read_strips_padding
  (frame : HeadersFrame.t) (p prio : Z) (block pad rest : list Z) :
  has_flag (HeadersFrame.Header frame) PADDED = true ->
  is_u8 p = true ->
  is_u32 prio = true ->
  Z.of_nat (length pad) = p ->
  Length (HeadersFrame.Header frame)
  = 1 + (if has_flag (HeadersFrame.Header frame) PRIORITY then 4 else 0)
    + Z.of_nat (length block) + p ->
  Length (HeadersFrame.Header frame) < 2 ^ 32 ->
  HeadersFrame.Read frame
    (p :: (if has_flag (HeadersFrame.Header frame) PRIORITY
           then put_u32 prio else [])
       ++ block ++ pad ++ rest)
  = Ok ({| HeadersFrame.Header := HeadersFrame.Header frame;
           HeadersFrame.Priority :=
             if has_flag (HeadersFrame.Header frame) PRIORITY
             then prio else HeadersFrame.Priority frame;
           HeadersFrame.HeaderBlock := block;
           HeadersFrame.Headers := HeadersFrame.Headers frame |}, rest).
Proof.
  unfold has_flag. intros Hpad Hp Hprio Hlen HL Hmax.
  apply is_u8_spec in Hp.
  unfold HeadersFrame.Read. rewrite Hpad.
  unfold bind at 1. unfold bind at 1. rewrite Read_u8_cons. unfold ret at 1.
  change (2 ^ 32) with 4294967296 in Hmax.
  destruct (Z.land (Flags (HeadersFrame.Header frame)) PRIORITY =? PRIORITY);
    cbv iota in HL.
  - unfold bind at 1. unfold bind at 1.
    rewrite Read_u32_put by assumption. unfold ret at 1.
    unfold bind at 1. unfold Read_bytes.
    rewrite (app_assoc block pad rest).
    rewrite (ReadFull_exact _ (block ++ pad) rest).
    2:{ unfold wrap32. change (2 ^ 32) with 4294967296.
        rewrite (Z.mod_small (_ - 1)) by lia.
        rewrite Z.mod_small by lia. rewrite length_app. lia. }
    unfold bind, lift. rewrite (slice_to_prefix block pad p Hlen). reflexivity.
  - unfold bind at 1. unfold ret at 1. rewrite app_nil_l.
    unfold bind at 1. unfold Read_bytes.
    rewrite (app_assoc block pad rest).
    rewrite (ReadFull_exact _ (block ++ pad) rest).
    2:{ unfold wrap32. change (2 ^ 32) with 4294967296.
        rewrite Z.mod_small by lia. rewrite length_app. lia. }
    unfold bind, lift. rewrite (slice_to_prefix block pad p Hlen). reflexivity.
Qed.

(** X6 on a block of two bytes followed by one byte of padding. *)
Lemma HeadersFrame_Read_strips_padding_witness :
  has_flag (HeadersFrame.Header sample_overpadded_headers) PADDED = true
  /\ is_u8 1 = true
  /\ is_u32 0 = true
  /\ Z.of_nat (length [0]) = 1
  /\ Length (HeadersFrame.Header sample_overpadded_headers)
     = 1 + (if has_flag (HeadersFrame.Header sample_overpadded_headers) PRIORITY
            then 4 else 0)
       + Z.of_nat (length [0xaa]) + 1
  /\ Length (HeadersFrame.Header sample_overpadded_headers) < 2 ^ 32
  /\ HeadersFrame.Read sample_overpadded_headers
       (1 :: (if has_flag (HeadersFrame.Header sample_overpadded_headers)
                          PRIORITY
              then put_u32 0 else [])
          ++ [0xaa] ++ [0] ++ [7])
     = Ok ({| HeadersFrame.Header := HeadersFrame.Header sample_overpadded_headers;
              HeadersFrame.Priority :=
                if has_flag (HeadersFrame.Header sample_overpadded_headers)
                            PRIORITY
                then 0 else HeadersFrame.Priority sample_overpadded_headers;
              HeadersFrame.HeaderBlock := [0xaa];
              HeadersFrame.Headers :=
                HeadersFrame.Headers sample_overpadded_headers |}, [7]).
Proof.
  do 5 (split; [ reflexivity | ]).
  split; [ vm_compute; reflexivity | ].
  apply (HeadersFrame_Read_strips_padding sample_overpadded_headers 1 0
           [0xaa] [0] [7]); reflexivity.
Defined.

Lemma slice_to_overlong {A : Type} (l : list A) (p : Z) :
  Z.of_nat (length l) < p ->
  slice_to l (Z.of_nat (length l) - p) = Panic SliceOutOfRange.
Proof.
  intros Hp. unfold slice_to.
  destruct (Z.ltb_spec (Z.of_nat (length l) - p) 0); [ reflexivity | lia ].
Qed.

(** X7: on a HEADERS frame with the PADDED flag whose whole payload is in
    the source, [HeadersFrame.Read] panics in the slice expression whenever
    the pad-length byte is larger than the number of bytes that follow the
    pad length and the priority. *)
Theorem HeadersFrame_Read_pad_exceeds_payload
  (frame : HeadersFrame.t) (p prio : Z) (data rest : list Z) :
  has_flag (HeadersFrame.Header frame) PADDED = true ->
  is_u32 prio = true ->
  Length (HeadersFrame.Header frame)
  = 1 + (if has_flag (HeadersFrame.Header frame) PRIORITY then 4 else 0)
    + Z.of_nat (length data) ->
  Length (HeadersFrame.Header frame) < 2 ^ 32 ->
  Z.of_nat (length data) < p ->
  HeadersFrame.Read frame
    (p :: (if has_flag (HeadersFrame.Header frame) PRIORITY
           then put_u32 prio else [])
       ++ data ++ rest)
  = Panic SliceOutOfRange.
Proof.
  unfold has_flag. intros Hpad Hprio HL Hmax Hp.
  unfold HeadersFrame.Read. rewrite Hpad.
  unfold bind at 1. unfold bind at 1. rewrite Read_u8_cons. unfold ret at 1.
  change (2 ^ 32) with 4294967296 in Hmax.
  destruct (Z.land (Flags (HeadersFrame.Header frame)) PRIORITY =? PRIORITY);
    cbv iota in HL.
  - unfold bind at 1. unfold bind at 1.
    rewrite Read_u32_put by assumption. unfold ret at 1.
    unfold bind at 1. unfold Read_bytes.
    rewrite (ReadFull_exact _ data rest).
    2:{ unfold wrap32. change (2 ^ 32) with 4294967296.
        rewrite (Z.mod_small (_ - 1)) by lia.
        rewrite Z.mod_small by lia. lia. }
    unfold bind, lift. rewrite (slice_to_overlong data p Hp). reflexivity.
  - unfold bind at 1. unfold ret at 1. rewrite app_nil_l.
    unfold bind at 1. unfold Read_bytes.
    rewrite (ReadFull_exact _ data rest).
    2:{ unfold wrap32. change (2 ^ 32) with 4294967296.
        rewrite Z.mod_small by lia. lia. }
    unfold bind, lift. rewrite (slice_to_overlong data p Hp). reflexivity.
Qed.

(** X7 on a pad length of 5 in front of two bytes. *)
Lemma HeadersFrame_Read_pad_exceeds_payload_witness :
  has_flag (HeadersFrame.Header sample_overpadded_headers) PADDED = true
  /\ is_u32 0 = true
  /\ Length (HeadersFrame.Header sample_overpadded_headers)
     = 1 + (if has_flag (HeadersFrame.Header sample_overpadded_headers) PRIORITY
            then 4 else 0)
       + Z.of_nat (length [0xaa; 0xbb])
  /\ Length (HeadersFrame.Header sample_overpadded_headers) < 2 ^ 32
  /\ Z.of_nat (length [0xaa; 0xbb]) < 5
  /\ HeadersFrame.Read sample_overpadded_headers
       (5 :: (if has_flag (HeadersFrame.Header sample_overpadded_headers)
                          PRIORITY
              then put_u32 0 else [])
          ++ [0xaa; 0xbb] ++ [7; 7; 7; 7])
     = Panic SliceOutOfRange.
Proof.
  do 3 (split; [ reflexivity | ]).
  split; [ vm_compute; reflexivity | ].
  split; [ vm_compute; reflexivity | ].
  apply (HeadersFrame_Read_pad_exceeds_payload sample_overpadded_headers 5 0
           [0xaa; 0xbb] [7; 7; 7; 7]); reflexivity.
Defined.

Lemma Read_u32_cons (b0 b1 b2 b3 : Z) (rest : list Z) :
  Read_u32 (b0 :: b1 :: b2 :: b3 :: rest) = Ok (get_u32 [b0; b1; b2; b3], rest).
Proof.
  unfold Read_u32, bind. change (b0 :: b1 :: b2 :: b3 :: rest)
    with ([b0; b1; b2; b3] ++ rest).
  rewrite ReadFull_exact by reflexivity. reflexivity.
Qed.

(** X8: when the header of a HEADERS frame declares fewer bytes than the
    fields its flags call for (one for PADDED, four for PRIORITY), the
    remaining length goes below zero and wraps around [2^32]: after reading
    those fields [HeadersFrame.Read] asks for close to [2^32] bytes and, on
    any source shorter than that, returns [io.EOF] or
    [io.ErrUnexpectedEOF]. *)
Theorem HeadersFrame_Read_length_wraps
  (frame : HeadersFrame.t) (p b0 b1 b2 b3 : Z) (rest : list Z) :
  0 <= Length (HeadersFrame.Header frame)
       < (if has_flag (HeadersFrame.Header frame) PADDED then 1 else 0)
         + (if has_flag (HeadersFrame.Header frame) PRIORITY then 4 else 0) ->
  Z.of_nat (length rest) < 2 ^ 32 - 5 ->
  HeadersFrame.Read frame
    ((if has_flag (HeadersFrame.Header frame) PADDED then [p] else [])
     ++ (if has_flag (HeadersFrame.Header frame) PRIORITY
         then [b0; b1; b2; b3] else [])
     ++ rest)
  = Err (short_read rest).
Proof.
  unfold has_flag. intros HL Hrest.
  change (2 ^ 32) with 4294967296 in Hrest.
  unfold HeadersFrame.Read.
  destruct (Z.land (Flags (HeadersFrame.Header frame)) PADDED =? PADDED);
    destruct (Z.land (Flags (HeadersFrame.Header frame)) PRIORITY =? PRIORITY);
    cbv iota in HL; try lia; cbn [app].
  - unfold bind at 1. unfold bind at 1. rewrite Read_u8_cons. unfold ret at 1.
    unfold bind at 1. unfold bind at 1. rewrite Read_u32_cons. unfold ret at 1.
    unfold bind at 1. unfold Read_bytes.
    rewrite ReadFull_cases by (unfold wrap32; apply Z.mod_pos_bound; lia).
    destruct (Z.ltb_spec (Z.of_nat (length rest))
                (wrap32 (wrap32 (Length (HeadersFrame.Header frame) - 1) - 4)))
      as [_ | Hge]; [ reflexivity | exfalso ].
    unfold wrap32 in Hge. change (2 ^ 32) with 4294967296 in Hge.
    revert Hge. Z.to_euclidean_division_equations. lia.
  - unfold bind at 1. unfold bind at 1. rewrite Read_u8_cons. unfold ret at 1.
    unfold bind at 1. unfold ret at 1.
    unfold bind at 1. unfold Read_bytes.
    rewrite ReadFull_cases by (unfold wrap32; apply Z.mod_pos_bound; lia).
    destruct (Z.ltb_spec (Z.of_nat (length rest))
                (wrap32 (Length (HeadersFrame.Header frame) - 1)))
      as [_ | Hge]; [ reflexivity | exfalso ].
    unfold wrap32 in Hge. change (2 ^ 32) with 4294967296 in Hge.
    revert Hge. Z.to_euclidean_division_equations. lia.
  - unfold bind at 1. unfold ret at 1.
    unfold bind at 1. unfold bind at 1. rewrite Read_u32_cons. unfold ret at 1.
    unfold bind at 1. unfold Read_bytes.
    rewrite ReadFull_cases by (unfold wrap32; apply Z.mod_pos_bound; lia).
    destruct (Z.ltb_spec (Z.of_nat (length rest))
                (wrap32 (Length (HeadersFrame.Header frame) - 4)))
      as [_ | Hge]; [ reflexivity | exfalso ].
    unfold wrap32 in Hge. change (2 ^ 32) with 4294967296 in Hge.
    revert Hge. Z.to_euclidean_division_equations. lia.
Qed.

(** X8 on the frame [NewHeadersFrame(PRIORITY, 1)] builds, length 0, read
    from the four bytes its own [Write] emits after the header. *)
Lemma HeadersFrame_Read_length_wraps_witness :
  0 <= Length (HeadersFrame.Header sample_priority_headers)
       < (if has_flag (HeadersFrame.Header sample_priority_headers) PADDED
          then 1 else 0)
         + (if has_flag (HeadersFrame.Header sample_priority_headers) PRIORITY
            then 4 else 0)
  /\ Z.of_nat (length (@nil Z)) < 2 ^ 32 - 5
  /\ HeadersFrame.Read sample_priority_headers
       ((if has_flag (HeadersFrame.Header sample_priority_headers) PADDED
         then [0] else [])
        ++ (if has_flag (HeadersFrame.Header sample_priority_headers) PRIORITY
            then [0; 0; 0; 0] else [])
        ++ [])
     = Err (short_read []).
Proof.
  split; [ vm_compute; split; [ discriminate | reflexivity ] | ].
  split; [ vm_compute; reflexivity | ].
  apply (HeadersFrame_Read_length_wraps sample_priority_headers 0 0 0 0 0 []).
  - vm_compute; split; [ discriminate | reflexivity ].
  - vm_compute; reflexivity.
Defined.

(** ** SETTINGS payload *)

Lemma write_loop_settings_bytes (ss : list Setting) :
  SettingsFrame.write_loop ss [] = settings_bytes ss.
Proof.
  induction ss as [| s ss IH]; [ reflexivity | ].
  cbn [SettingsFrame.write_loop settings_bytes flat_map].
  rewrite write_loop_app, IH. reflexivity.
Qed.

(** X9: [SettingsFrame.Read] appends to the settings the frame already
    holds: when the source starts with the five-byte encodings of the
    entries [ss] and [Length / 5] is their number, the frame comes back with
    its former settings followed by [ss], in wire order and with repeated
    identifiers kept, and the source is left just after them. *)
Theorem SettingsFrame_Read_appends
  (frame : SettingsFrame.t) (ss : list Setting) (rest : list Z) :
  forallb wf_setting ss = true ->
  Length (SettingsFrame.Header frame) / 5 = Z.of_nat (length ss) ->
  SettingsFrame.Read frame (settings_bytes ss ++ rest)
  = Ok ({| SettingsFrame.Header := SettingsFrame.Header frame;
           SettingsFrame.Settings := SettingsFrame.Settings frame ++ ss |},
        rest).
Proof.
  intros Hwf Hn. unfold SettingsFrame.Read. rewrite Hn, Nat2Z.id.
  unfold bind. rewrite <- write_loop_settings_bytes.
  rewrite read_loop_write_loop by exact Hwf. reflexivity.
Qed.

(** X9 on a frame that already holds one entry, reading the same
    identifier twice. *)
Lemma SettingsFrame_Read_appends_witness :
  forallb wf_setting [mkSetting 4 1; mkSetting 4 2] = true
  /\ Length (SettingsFrame.Header
               (NewSettingsFrame UNSET [(3, 100); (4, 0)] 0)) / 5
     = Z.of_nat (length [mkSetting 4 1; mkSetting 4 2])
  /\ SettingsFrame.Read (NewSettingsFrame UNSET [(3, 100); (4, 0)] 0)
       (settings_bytes [mkSetting 4 1; mkSetting 4 2] ++ [9])
     = Ok ({| SettingsFrame.Header :=
                SettingsFrame.Header
                  (NewSettingsFrame UNSET [(3, 100); (4, 0)] 0);
              SettingsFrame.Settings :=
                SettingsFrame.Settings
                  (NewSettingsFrame UNSET [(3, 100); (4, 0)] 0)
                ++ [mkSetting 4 1; mkSetting 4 2] |}, [9]).
Proof.
  split; [ reflexivity | split; [ reflexivity | ] ].
  apply (SettingsFrame_Read_appends
           (NewSettingsFrame UNSET [(3, 100); (4, 0)] 0)
           [mkSetting 4 1; mkSetting 4 2] [9]); reflexivity.
Defined.

Lemma read_loop_spec (niv : nat) :
  forall (acc : list Setting) (bs : list Z),
    is_bytes bs = true ->
    (5 * niv <= length bs)%nat ->
    exists ss : list Setting,
      SettingsFrame.read_loop niv acc bs = Ok (acc ++ ss, skipn (5 * niv) bs)
      /\ length ss = niv
      /\ forallb wf_setting ss = true
      /\ settings_bytes ss = firstn (5 * niv) bs.
Proof.
  induction niv as [| niv IH]; intros acc bs Hb Hlen.
  - exists []. cbn [SettingsFrame.read_loop]. unfold ret.
    rewrite app_nil_r. repeat split; reflexivity.
  - replace (5 * S niv)%nat with (S (S (S (S (S (5 * niv)))))) in * by lia.
    do 5 (destruct bs as [| ? bs]; [ cbn [length] in Hlen; lia | ]).
    repeat match goal with
           | H : is_bytes (_ :: _) = true |- _ =>
               apply is_bytes_cons in H; destruct H as [? H]
           end.
    cbn [length] in Hlen.
    match goal with
    | |- context [SettingsFrame.read_loop _ _ (?i :: ?a :: ?b :: ?c :: ?d :: bs)] =>
        destruct (IH (acc ++ [mkSetting i (get_u32 [a; b; c; d])]) bs Hb
                    ltac:(lia)) as [ss [Hr [Hn [Hwf Hbytes]]]];
        exists (mkSetting i (get_u32 [a; b; c; d]) :: ss)
    end.
    cbn [SettingsFrame.read_loop].
    unfold bind at 1. rewrite Read_u8_cons.
    unfold bind at 1. rewrite Read_u32_cons.
    rewrite Hr, <- app_assoc. cbn [app skipn firstn length].
    split; [ reflexivity | ]. split; [ now rewrite Hn | ].
    split.
    + cbn [forallb]. rewrite Hwf. unfold wf_setting.
      cbn [SettingsId Value]. rewrite get_u32_range by assumption.
      rewrite (proj2 (is_u8_spec _)) by assumption. reflexivity.
    + cbn [settings_bytes flat_map]. fold (settings_bytes ss). rewrite Hbytes.
      unfold setting_bytes. cbn [SettingsId Value].
      rewrite put_get_u32 by assumption.
      unfold put_u8. rewrite land_0xff.
      rewrite Z.mod_small by (change (2 ^ 8) with 256; assumption).
      reflexivity.
Qed.

(** X10: whatever the declared length, [SettingsFrame.Read] makes
    [Length / 5] turns: on a source holding at least that many five-byte
    groups it succeeds, appends exactly [Length / 5] entries, each a value of
    its Go types, consumes [5 * (Length / 5)] bytes, not [Length], and the
    entries it appended encode to exactly the bytes it consumed. *)
Theorem SettingsFrame_Read_entry_count (frame : SettingsFrame.t) (bs : list Z) :
  is_bytes bs = true ->
  0 <= Length (SettingsFrame.Header frame) ->
  5 * (Length (SettingsFrame.Header frame) / 5) <= Z.of_nat (length bs) ->
  exists ss : list Setting,
    SettingsFrame.Read frame bs
    = Ok ({| SettingsFrame.Header := SettingsFrame.Header frame;
             SettingsFrame.Settings := SettingsFrame.Settings frame ++ ss |},
          skipn (5 * Z.to_nat (Length (SettingsFrame.Header frame) / 5)) bs)
    /\ Z.of_nat (length ss) = Length (SettingsFrame.Header frame) / 5
    /\ forallb wf_setting ss = true
    /\ settings_bytes ss
       = firstn (5 * Z.to_nat (Length (SettingsFrame.Header frame) / 5)) bs.
Proof.
  intros Hb HL Hlen.
  assert (Hq : 0 <= Length (SettingsFrame.Header frame) / 5)
    by (apply Z.div_pos; lia).
  destruct (read_loop_spec
              (Z.to_nat (Length (SettingsFrame.Header frame) / 5))
              (SettingsFrame.Settings frame) bs Hb ltac:(lia))
    as [ss [Hr [Hn [Hwf Hbytes]]]].
  exists ss. unfold SettingsFrame.Read, bind. rewrite Hr.
  split; [ reflexivity | ]. split; [ lia | ]. split; assumption.
Qed.

(** X10 on a header announcing twelve bytes: two entries, ten bytes. *)
Lemma SettingsFrame_Read_entry_count_witness :
  is_bytes sample_settings_payload = true
  /\ 0 <= Length (SettingsFrame.Header sample_settings)
  /\ 5 * (Length (SettingsFrame.Header sample_settings) / 5)
     <= Z.of_nat (length sample_settings_payload)
  /\ exists ss : list Setting,
       SettingsFrame.Read sample_settings sample_settings_payload
       = Ok ({| SettingsFrame.Header := SettingsFrame.Header sample_settings;
                SettingsFrame.Settings :=
                  SettingsFrame.Settings sample_settings ++ ss |},
             skipn (5 * Z.to_nat
                          (Length (SettingsFrame.Header sample_settings) / 5))
                   sample_settings_payload)
       /\ Z.of_nat (length ss)
          = Length (SettingsFrame.Header sample_settings) / 5
       /\ forallb wf_setting ss = true
       /\ settings_bytes ss
          = firstn (5 * Z.to_nat
                          (Length (SettingsFrame.Header sample_settings) / 5))
                   sample_settings_payload.
Proof.
  split; [ reflexivity | ].
  split; [ vm_compute; discriminate | ].
  split; [ vm_compute; discriminate | ].
  apply (SettingsFrame_Read_entry_count sample_settings sample_settings_payload).
  - reflexivity.
  - vm_compute; discriminate.
  - vm_compute; discriminate.
Defined.

(** X11: [NewSettingsFrame] keeps the entries of the map in the order it
    ranged over them, sets the type code of SETTINGS, and declares as length
    exactly the number of bytes [SettingsFrame.Write] emits after the header
    (five per entry), as long as that number fits in 32 bits. *)
Theorem NewSettingsFrame_length_agrees
  (flags : Z) (setting : list (Z * Z)) (streamId : Z) :
  5 * Z.of_nat (length setting) < 2 ^ 32 ->
  let frame := NewSettingsFrame flags setting streamId in
  map (fun s => (SettingsId s, Value s)) (SettingsFrame.Settings frame) = setting
  /\ Type_ (SettingsFrame.Header frame) = SettingsFrameType
  /\ exists payload : list Z,
       SettingsFrame.Write frame []
       = FrameHeader.Write (SettingsFrame.Header frame) [] ++ payload
       /\ Length (SettingsFrame.Header frame) = Z.of_nat (length payload).
Proof.
  intros Hn frame. subst frame. unfold NewSettingsFrame.
  cbn [SettingsFrame.Header SettingsFrame.Settings FrameHeader.Type_
       FrameHeader.Length NewFrameHeader].
  split.
  - rewrite map_map. rewrite <- (map_id setting) at 2.
    apply map_ext. intros [id val]. reflexivity.
  - split; [ reflexivity | ].
    eexists. split.
    + unfold SettingsFrame.Write.
      cbn [SettingsFrame.Header SettingsFrame.Settings].
      apply write_loop_app.
    + rewrite write_loop_length, length_map. unfold wrap32.
      apply Z.mod_small. lia.
Qed.

(** X11 on a two-entry map. *)
Lemma NewSettingsFrame_length_agrees_witness :
  5 * Z.of_nat (length [(3, 100); (4, 65535)]) < 2 ^ 32
  /\ let frame := NewSettingsFrame UNSET [(3, 100); (4, 65535)] 0 in
     map (fun s => (SettingsId s, Value s)) (SettingsFrame.Settings frame)
     = [(3, 100); (4, 65535)]
     /\ Type_ (SettingsFrame.Header frame) = SettingsFrameType
     /\ exists payload : list Z,
          SettingsFrame.Write frame []
          = FrameHeader.Write (SettingsFrame.Header frame) [] ++ payload
          /\ Length (SettingsFrame.Header frame) = Z.of_nat (length payload).
Proof.
  split; [ vm_compute; reflexivity | ].
  apply (NewSettingsFrame_length_agrees UNSET [(3, 100); (4, 65535)] 0).
  vm_compute; reflexivity.
Defined.

(** ** GOAWAY and WINDOW_UPDATE payloads *)

(** X12: [GoAwayFrame.Read] reads the last stream id and the error code as
    two big-endian words and then exactly as many debug bytes as the
    frame's [AdditionalDebugData] slice already holds, whatever the header
    declares: a frame allocated with an empty slice gets no debug data and
    the debug bytes of the payload stay in the source. *)
Theorem GoAwayFrame_Read_fills_debug_slice
  (frame : GoAwayFrame.t) (l e : Z) (d rest : list Z) :
  is_u32 l = true ->
  is_u32 e = true ->
  length d = length (GoAwayFrame.AdditionalDebugData frame) ->
  GoAwayFrame.Read frame (put_u32 l ++ put_u32 e ++ d ++ rest)
  = Ok ({| GoAwayFrame.Header := GoAwayFrame.Header frame;
           GoAwayFrame.LastStreamID := l;
           GoAwayFrame.ErrorCode := e;
           GoAwayFrame.AdditionalDebugData := d |}, rest).
Proof.
  intros Hl He Hd. unfold GoAwayFrame.Read.
  unfold bind at 1. rewrite Read_u32_put by assumption.
  unfold bind at 1. rewrite Read_u32_put by assumption.
  unfold bind, Read_bytes. rewrite <- Hd, ReadFull_app. reflexivity.
Qed.

(** X12 on a freshly allocated frame whose header declares nine bytes: the
    ninth byte is not read. *)
Lemma GoAwayFrame_Read_fills_debug_slice_witness :
  is_u32 3 = true
  /\ is_u32 NO_ERROR = true
  /\ length (@nil Z)
     = length (GoAwayFrame.AdditionalDebugData
                 (GoAwayFrame.mk (NewFrameHeader 9 GoAwayFrameType 0 0) 0 0 []))
  /\ GoAwayFrame.Read
       (GoAwayFrame.mk (NewFrameHeader 9 GoAwayFrameType 0 0) 0 0 [])
       (put_u32 3 ++ put_u32 NO_ERROR ++ [] ++ [0x41])
     = Ok ({| GoAwayFrame.Header := NewFrameHeader 9 GoAwayFrameType 0 0;
              GoAwayFrame.LastStreamID := 3;
              GoAwayFrame.ErrorCode := NO_ERROR;
              GoAwayFrame.AdditionalDebugData := [] |}, [0x41]).
Proof.
  do 3 (split; [ reflexivity | ]).
  apply (GoAwayFrame_Read_fills_debug_slice
           (GoAwayFrame.mk (NewFrameHeader 9 GoAwayFrameType 0 0) 0 0 [])
           3 NO_ERROR [] [0x41]); reflexivity.
Defined.

(** X13: [WindowUpdateFrame.Read] takes four bytes as a big-endian word and
    stores it as the increment as it stands, whatever the header declares:
    an increment of zero and an increment with its top bit set are both
    accepted, and the bytes that follow are left in the source. *)
Theorem WindowUpdateFrame_Read_any_word
  (frame : WindowUpdateFrame.t) (b0 b1 b2 b3 : Z) (rest : list Z) :
  is_bytes [b0; b1; b2; b3] = true ->
  WindowUpdateFrame.Read frame (b0 :: b1 :: b2 :: b3 :: rest)
  = Ok ({| WindowUpdateFrame.Header := WindowUpdateFrame.Header frame;
           WindowUpdateFrame.WindowSizeIncrement :=
             b0 * 2 ^ 24 + b1 * 2 ^ 16 + b2 * 2 ^ 8 + b3 |}, rest).
Proof.
  intros Hb.
  repeat match goal with
         | H : is_bytes (_ :: _) = true |- _ =>
             apply is_bytes_cons in H; destruct H as [? H]
         end.
  unfold WindowUpdateFrame.Read, bind. rewrite Read_u32_cons.
  unfold ret. rewrite get_u32_arith by assumption. reflexivity.
Qed.

(** X13 on an increment of zero. *)
Lemma WindowUpdateFrame_Read_any_word_witness :
  is_bytes [0; 0; 0; 0] = true
  /\ WindowUpdateFrame.Read (NewWindowUpdateFrame 1 1) (0 :: 0 :: 0 :: 0 :: [])
     = Ok ({| WindowUpdateFrame.Header :=
                WindowUpdateFrame.Header (NewWindowUpdateFrame 1 1);
              WindowUpdateFrame.WindowSizeIncrement :=
                0 * 2 ^ 24 + 0 * 2 ^ 16 + 0 * 2 ^ 8 + 0 |}, []).
Proof.
  split; [ reflexivity | ].
  apply (WindowUpdateFrame_Read_any_word (NewWindowUpdateFrame 1 1) 0 0 0 0 []).
  reflexivity.
Defined.

(** ** Error names *)

(** X14: for an error code of type uint32, [String] returns the name of
    the code itself only for codes 0 and 1; from 2 to 13 it returns the name
    the constants give to the code one below (the table lists
    PROTOCOL_ERROR twice); and from 14 on the index is out of range and the
    call panics. *)
Theorem ErrorCode_String_shifted (e : Z) :
  is_u32 e = true ->
  (e <= 1 ->
   exists name : string,
     ErrorCode_String e = Ok name
     /\ nth_error ErrorCode_constants (Z.to_nat e) = Some (name, e))
  /\ (2 <= e <= 13 ->
      exists name : string,
        ErrorCode_String e = Ok name
        /\ nth_error ErrorCode_constants (Z.to_nat (e - 1)) = Some (name, e - 1))
  /\ (14 <= e -> ErrorCode_String e = Panic IndexOutOfRange).
Proof.
  rewrite is_u32_spec. intros He. split; [ | split ].
  - intros H. assert (Hc : e = 0 \/ e = 1) by lia.
    destruct Hc as [-> | ->]; eexists; split; reflexivity.
  - intros H.
    assert (Hc : e = 2 \/ e = 3 \/ e = 4 \/ e = 5 \/ e = 6 \/ e = 7 \/ e = 8
                 \/ e = 9 \/ e = 10 \/ e = 11 \/ e = 12 \/ e = 13) by lia.
    repeat (destruct Hc as [-> | Hc]); try subst e;
      (eexists; split; reflexivity).
  - intros H. unfold ErrorCode_String, slice_index.
    destruct (Z.ltb_spec e 0); [ lia | ].
    assert (Hn : nth_error error_names (Z.to_nat e) = None).
    { apply nth_error_None. change (length error_names) with 14%nat. lia. }
    rewrite Hn. reflexivity.
Qed.

(** X14 at INADEQUATE_SECURITY, rendered as the name of code 11. *)
Lemma ErrorCode_String_shifted_witness :
  is_u32 INADEQUATE_SECURITY = true
  /\ (INADEQUATE_SECURITY <= 1 ->
      exists name : string,
        ErrorCode_String INADEQUATE_SECURITY = Ok name
        /\ nth_error ErrorCode_constants (Z.to_nat INADEQUATE_SECURITY)
           = Some (name, INADEQUATE_SECURITY))
  /\ (2 <= INADEQUATE_SECURITY <= 13 ->
      exists name : string,
        ErrorCode_String INADEQUATE_SECURITY = Ok name
        /\ nth_error ErrorCode_constants (Z.to_nat (INADEQUATE_SECURITY - 1))
           = Some (name, INADEQUATE_SECURITY - 1))
  /\ (14 <= INADEQUATE_SECURITY ->
      ErrorCode_String INADEQUATE_SECURITY = Panic IndexOutOfRange).
Proof.
  split; [ reflexivity | ].
  apply (ErrorCode_String_shifted INADEQUATE_SECURITY). reflexivity.
Defined.

(** ** Writers *)

Lemma Frame_Write_app (f : Frame) (w : Writer) :
  Frame_Write f w = w ++ Frame_Write f [].
Proof.
  destruct f as [f | f | f | f | f | f]; cbn [Frame_Write].
  - unfold DataFrame.Write, Write_bytes, FrameHeader.Write.
    now rewrite app_nil_l, <- !app_assoc.
  - unfold HeadersFrame.Write, Write_bytes, Write_u32, FrameHeader.Write.
    destruct (_ =? PRIORITY); now rewrite app_nil_l, <- !app_assoc.
  - unfold RstStreamFrame.Write, Write_u32, FrameHeader.Write.
    now rewrite app_nil_l, <- !app_assoc.
  - unfold SettingsFrame.Write.
    rewrite write_loop_app, (write_loop_app _ (FrameHeader.Write _ [])).
    unfold FrameHeader.Write. now rewrite app_nil_l, <- !app_assoc.
  - unfold GoAwayFrame.Write, Write_bytes, Write_u32, FrameHeader.Write.
    now rewrite app_nil_l, <- !app_assoc.
  - unfold WindowUpdateFrame.Write, Write_u32, FrameHeader.Write.
    now rewrite app_nil_l, <- !app_assoc.
Qed.


(** X16: the number of bytes a frame adds to the sink is the ten bytes of
    the header plus the size of its payload fields: 4 for RST_STREAM and
    WINDOW_UPDATE, 5 per entry for SETTINGS, 8 plus the debug data for
    GOAWAY, the data for DATA, and for HEADERS the block plus 4 when the
    PRIORITY flag is set; the PADDED flag and the [Length] field have no
    part in it. *)
Theorem Frame_Write_size (f : Frame) (w : Writer) :
  Z.of_nat (length (Frame_Write f w))
  = Z.of_nat (length w) + FrameHeader.Size + payload_size f.
Proof.
  rewrite Frame_Write_app.
  destruct (Frame_Write_payload f) as [payload [Hw Hn]].
  rewrite Hw, !length_app, <- Hn.
  change FrameHeader.Size with (Z.of_nat (length (FrameHeader.Write (Frame_Header f) []))).
  lia.
Qed.

(** ** Constructors *)

(** X17: the frames [NewRstStreamFrame], [NewWindowUpdateFrame],
    [NewGoAwayFrame] and [NewDataFrame] build from arguments of their Go
    types are valid: the type code is that of the variant and the declared
    length is the size of the payload [Write] emits.  A frame from
    [NewHeadersFrame] is valid exactly when the PRIORITY flag is not among
    its flags: with it, the length is declared 0 while four bytes of
    priority are written. *)
Theorem constructors_build_valid_frames (e l inc sid flags : Z) :
  is_u32 e = true -> is_u32 l = true -> is_u32 inc = true ->
  is_u32 sid = true -> is_u8 flags = true ->
  valid_frame (RstStream (NewRstStreamFrame e sid)) = true
  /\ valid_frame (WindowUpdate (NewWindowUpdateFrame inc sid)) = true
  /\ valid_frame (GoAway (NewGoAwayFrame l e sid)) = true
  /\ valid_frame (Data (NewDataFrame flags sid)) = true
  /\ valid_frame (HeadersF (NewHeadersFrame flags sid))
     = negb (has_flag (HeadersFrame.Header (NewHeadersFrame flags sid)) PRIORITY).
Proof.
  intros He Hl Hi Hs Hf.
  unfold valid_frame, wf_header, wf_payload, payload_size, type_code,
    Frame_Header, NewRstStreamFrame, NewWindowUpdateFrame, NewGoAwayFrame,
    NewDataFrame, NewHeadersFrame, NewFrameHeader, has_flag.
  cbn [RstStreamFrame.Header RstStreamFrame.ErrorCode WindowUpdateFrame.Header
       WindowUpdateFrame.WindowSizeIncrement GoAwayFrame.Header
       GoAwayFrame.LastStreamID GoAwayFrame.ErrorCode
       GoAwayFrame.AdditionalDebugData DataFrame.Header DataFrame.Data
       HeadersFrame.Header HeadersFrame.Priority HeadersFrame.HeaderBlock
       HeadersFrame.Headers FrameHeader.Length FrameHeader.Type_
       FrameHeader.Flags FrameHeader.StreamId].
  rewrite He, Hl, Hi, Hs, Hf.
  repeat split; try reflexivity.
  destruct (Z.land flags PRIORITY =? PRIORITY); reflexivity.
Qed.

(** X17 on small arguments. *)
Lemma constructors_build_valid_frames_witness :
  is_u32 CANCEL = true /\ is_u32 3 = true /\ is_u32 4096 = true
  /\ is_u32 1 = true /\ is_u8 PRIORITY = true
  /\ valid_frame (RstStream (NewRstStreamFrame CANCEL 1)) = true
  /\ valid_frame (WindowUpdate (NewWindowUpdateFrame 4096 1)) = true
  /\ valid_frame (GoAway (NewGoAwayFrame 3 CANCEL 1)) = true
  /\ valid_frame (Data (NewDataFrame PRIORITY 1)) = true
  /\ valid_frame (HeadersF (NewHeadersFrame PRIORITY 1))
     = negb (has_flag (HeadersFrame.Header (NewHeadersFrame PRIORITY 1))
                      PRIORITY).
Proof.
  do 5 (split; [ reflexivity | ]).
  apply (constructors_build_valid_frames CANCEL 3 4096 1 PRIORITY);
    reflexivity.
Defined.

(** ** Where a read can panic *)

Lemma no_panic_ret {A : Type} (a : A) : no_panic (ret a).
Proof. intros bs p. discriminate. Qed.

Lemma no_panic_bind {A B : Type} (m : M A) (k : A -> M B) :
  no_panic m -> (forall a, no_panic (k a)) -> no_panic (bind m k).
Proof.
  intros Hm Hk bs p. unfold bind.
  destruct (m bs) as [[a r] | e | q] eqn:Em.
  - apply Hk.
  - discriminate.
  - exfalso. exact (Hm bs q Em).
Qed.

Lemma no_panic_ReadFull (n : Z) : no_panic (ReadFull n).
Proof.
  intros bs p. unfold ReadFull.
  destruct (n <=? 0); [ discriminate | ].
  destruct (_ =? 0); [ discriminate | ].
  destruct (_ <? n); discriminate.
Qed.

Lemma no_panic_Read_u8 : no_panic Read_u8.
Proof.
  apply no_panic_bind; [ apply no_panic_ReadFull | intros; apply no_panic_ret ].
Qed.

Lemma no_panic_Read_u32 : no_panic Read_u32.
Proof.
  apply no_panic_bind; [ apply no_panic_ReadFull | intros; apply no_panic_ret ].
Qed.

Lemma no_panic_slice_all {A : Type} (l : list A) :
  no_panic (lift (slice_to l (Z.of_nat (length l) - 0))).
Proof. intros bs p. rewrite slice_to_all. discriminate. Qed.

Lemma no_panic_read_loop (niv : nat) (acc : list Setting) :
  no_panic (SettingsFrame.read_loop niv acc).
Proof.
  revert acc. induction niv as [| niv IH]; intros acc;
    cbn [SettingsFrame.read_loop].
  - apply no_panic_ret.
  - apply no_panic_bind; [ apply no_panic_Read_u8 | intros id ].
    apply no_panic_bind; [ apply no_panic_Read_u32 | intros v ]. apply IH.
Qed.

Ltac no_panic_step :=
  first [ apply no_panic_ret | apply no_panic_Read_u8 | apply no_panic_Read_u32
        | apply no_panic_ReadFull | apply no_panic_read_loop
        | apply no_panic_slice_all
        | apply no_panic_bind; [ | intros ? ] ].

Lemma no_panic_FrameHeader_Read : no_panic FrameHeader.Read.
Proof. unfold FrameHeader.Read. repeat no_panic_step. Qed.

Lemma no_panic_HeadersFrame_Read_unpadded (frame : HeadersFrame.t) :
  has_flag (HeadersFrame.Header frame) PADDED = false ->
  no_panic (HeadersFrame.Read frame).
Proof.
  unfold has_flag. intros Hpad bs p. unfold HeadersFrame.Read. rewrite Hpad.
  unfold bind at 1. unfold ret at 1. cbv beta iota.
  revert bs p.
  apply no_panic_bind; [ | intros [priority frameLen'] ].
  - destruct (_ =? PRIORITY); repeat no_panic_step.
  - unfold Read_bytes.
    apply no_panic_bind; [ apply no_panic_ReadFull | intros data ].
    apply no_panic_bind; [ apply no_panic_slice_all | intros hb ].
    apply no_panic_ret.
Qed.

Lemma no_panic_DataFrame_Read (frame : DataFrame.t) :
  no_panic (DataFrame.Read frame).
Proof.
  unfold DataFrame.Read, Read_bytes. rewrite land_PADDED_neq_1.
  apply no_panic_bind; [ apply no_panic_ret | intros frameLen ].
  apply no_panic_bind; [ apply no_panic_ReadFull | intros data ].
  apply no_panic_bind; [ apply no_panic_slice_all | intros d ].
  apply no_panic_ret.
Qed.

Lemma HeadersFrame_Read_panic_is_slice (frame : HeadersFrame.t) (bs : list Z)
  (p : panic) :
  HeadersFrame.Read frame bs = Panic p -> p = SliceOutOfRange.
Proof.
  unfold HeadersFrame.Read, Read_bytes.
  set (m1 := if _ =? PADDED then _ else _).
  unfold bind at 1.
  destruct (m1 bs) as [[[padLen frameLen] r1] | e | q] eqn:E1;
    [ | discriminate | ].
  2:{ exfalso. subst m1. revert E1.
      destruct (_ =? PADDED).
      - apply (no_panic_bind Read_u8 _ no_panic_Read_u8
                 (fun a => no_panic_ret _)).
      - apply no_panic_ret. }
  set (m2 := if _ =? PRIORITY then _ else _).
  unfold bind at 1.
  destruct (m2 r1) as [[[priority frameLen'] r2] | e | q] eqn:E2;
    [ | discriminate | ].
  2:{ exfalso. subst m2. revert E2.
      destruct (_ =? PRIORITY).
      - apply (no_panic_bind Read_u32 _ no_panic_Read_u32
                 (fun a => no_panic_ret _)).
      - apply no_panic_ret. }
  unfold bind at 1.
  destruct (ReadFull frameLen' r2) as [[data r3] | e | q] eqn:E3;
    [ | discriminate | exfalso; exact (no_panic_ReadFull _ _ _ E3) ].
  unfold bind, lift, slice_to.
  destruct (_ || _); [ | discriminate ].
  intros H. injection H as <-. reflexivity.
Qed.

(** X18: reading a frame can panic in one place only.  For every source,
    a read of a DATA, RST_STREAM, SETTINGS, GOAWAY or WINDOW_UPDATE frame
    ends with a frame or with an error; when a read panics, the frame is a
    HEADERS frame, its header was read in full and carries the PADDED flag,
    and the panic is the slice bound of the padding. *)
Theorem decode_panics_only_on_padded_headers (k : FrameKind) (bs : list Z)
  (p : panic) :
  decode k bs = Panic p ->
  k = KHeaders
  /\ p = SliceOutOfRange
  /\ exists (fh : FrameHeader.t) (body : list Z),
       FrameHeader.Read bs = Ok (fh, body) /\ has_flag fh PADDED = true.
Proof.
  unfold decode, bind.
  destruct (FrameHeader.Read bs) as [[fh body] | e | q] eqn:Eh;
    [ | discriminate | intros _; exfalso;
                       exact (no_panic_FrameHeader_Read _ _ Eh) ].
  destruct k; cbn [empty_frame Frame_Read]; unfold bind at 1;
    match goal with
    | |- context [HeadersFrame.Read ?f body] =>
        destruct (HeadersFrame.Read f body) as [[f' r] | e | q] eqn:Ef
    | |- context [DataFrame.Read ?f body] =>
        pose proof (no_panic_DataFrame_Read f body) as Hsafe;
        destruct (DataFrame.Read f body) as [[f' r] | e | q]
    | |- context [?rd body] =>
        assert (Hsafe : forall q, rd body <> Panic q)
          by (intros q; unfold RstStreamFrame.Read, SettingsFrame.Read,
                GoAwayFrame.Read, WindowUpdateFrame.Read, Read_bytes;
              revert q; generalize body; repeat no_panic_step);
        destruct (rd body) as [[f' r] | e | q]
    end;
    try discriminate;
    try (intros _; exfalso; exact (Hsafe _ eq_refl)).
  intros H. injection H as ->.
  split; [ reflexivity | ].
  split; [ exact (HeadersFrame_Read_panic_is_slice _ _ _ Ef) | ].
  exists fh, body. split; [ reflexivity | ].
  destruct (has_flag fh PADDED) eqn:Hp; [ reflexivity | exfalso ].
  exact (no_panic_HeadersFrame_Read_unpadded (HeadersFrame.mk fh 0 [] []) Hp
           _ _ Ef).
Qed.

(** X18 on a HEADERS frame whose pad length exceeds its payload. *)
Lemma decode_panics_only_on_padded_headers_witness :
  decode KHeaders sample_overpadded_bytes = Panic SliceOutOfRange
  /\ KHeaders = KHeaders
  /\ SliceOutOfRange = SliceOutOfRange
  /\ exists (fh : FrameHeader.t) (body : list Z),
       FrameHeader.Read sample_overpadded_bytes = Ok (fh, body)
       /\ has_flag fh PADDED = true.
Proof.
  split; [ reflexivity | ].
  apply (decode_panics_only_on_padded_headers KHeaders sample_overpadded_bytes).
  reflexivity.
Defined.

(** ** Rendering a GOAWAY frame *)

(** X19: whatever the colouring and formatting functions are,
    [GoAwayFrame.String] returns a string when the frame's error code is at
    most 13 and panics (index out of range in [ErrorCode.String]) when it is
    14 or more: the error code of a GOAWAY frame, any 32-bit word a peer
    sends, decides whether rendering the frame crashes. *)
Theorem GoAwayFrame_String_panics_from_14
  (Cyan Red : string -> string) (Sprintf_header : Z -> Z -> Z -> string)
  (Sprintf_goaway : Z -> string -> list Z -> string) (frame : GoAwayFrame.t) :
  is_u32 (GoAwayFrame.ErrorCode frame) = true ->
  (GoAwayFrame.ErrorCode frame <= 13 ->
   exists s : string,
     GoAwayFrame_String Cyan Red Sprintf_header Sprintf_goaway frame = Ok s)
  /\ (14 <= GoAwayFrame.ErrorCode frame ->
      GoAwayFrame_String Cyan Red Sprintf_header Sprintf_goaway frame
      = Panic IndexOutOfRange).
Proof.
  rewrite is_u32_spec. intros He. unfold GoAwayFrame_String. split.
  - intros H.
    assert (Hn : exists name,
               ErrorCode_String (GoAwayFrame.ErrorCode frame) = Ok name).
    { set (e := GoAwayFrame.ErrorCode frame) in *.
      assert (Hc : e = 0 \/ e = 1 \/ e = 2 \/ e = 3 \/ e = 4 \/ e = 5
                   \/ e = 6 \/ e = 7 \/ e = 8 \/ e = 9 \/ e = 10 \/ e = 11
                   \/ e = 12 \/ e = 13) by lia.
      clearbody e.
      repeat (destruct Hc as [-> | Hc]); try subst e;
        (eexists; reflexivity). }
    destruct Hn as [name ->]. eexists. reflexivity.
  - intros H.
    assert (Hn : ErrorCode_String (GoAwayFrame.ErrorCode frame)
                 = Panic IndexOutOfRange).
    { unfold ErrorCode_String, slice_index.
      destruct (Z.ltb_spec (GoAwayFrame.ErrorCode frame) 0); [ lia | ].
      assert (Hnth : nth_error error_names
                       (Z.to_nat (GoAwayFrame.ErrorCode frame)) = None).
      { apply nth_error_None. change (length error_names) with 14%nat. lia. }
      rewrite Hnth. reflexivity. }
    rewrite Hn. reflexivity.
Qed.

(** X19 on a GOAWAY frame with error code 14, rendered with identity
    colouring and empty formats. *)
Lemma GoAwayFrame_String_panics_from_14_witness :
  is_u32 (GoAwayFrame.ErrorCode (NewGoAwayFrame 0 14 0)) = true
  /\ (GoAwayFrame.ErrorCode (NewGoAwayFrame 0 14 0) <= 13 ->
      exists s : string,
        GoAwayFrame_String (fun s => s) (fun s => s)
          (fun _ _ _ => EmptyString) (fun _ _ _ => EmptyString)
          (NewGoAwayFrame 0 14 0) = Ok s)
  /\ (14 <= GoAwayFrame.ErrorCode (NewGoAwayFrame 0 14 0) ->
      GoAwayFrame_String (fun s => s) (fun s => s)
        (fun _ _ _ => EmptyString) (fun _ _ _ => EmptyString)
        (NewGoAwayFrame 0 14 0) = Panic IndexOutOfRange).
Proof.
  split; [ reflexivity | ].
  apply (GoAwayFrame_String_panics_from_14 (fun s => s) (fun s => s)
           (fun _ _ _ => EmptyString) (fun _ _ _ => EmptyString)
           (NewGoAwayFrame 0 14 0)).
  reflexivity.
Defined.

(** ** What a payload read leaves alone *)

Lemma bind_Ok_inv {A B : Type} (m : M A) (k : A -> M B) (bs : list Z)
  (b : B) (rest : list Z) :
  bind m k bs = Ok (b, rest) ->
  exists (a : A) (r : list Z), m bs = Ok (a, r) /\ k a r = Ok (b, rest).
Proof.
  unfold bind. destruct (m bs) as [[a r] | e | p]; try discriminate.
  intros H. now exists a, r.
Qed.

Ltac bind_inv H :=
  let a := fresh "a" in
  let r := fresh "r" in
  let H1 := fresh "Hm" in
  apply bind_Ok_inv in H; destruct H as [a [r [H1 H]]].

(** X20: a payload read fills payload fields only.  Whenever [Read]
    succeeds on a frame, the frame that comes back is of the same variant
    and holds the same header, untouched; for a HEADERS frame the [Headers]
    map is also the one the frame had, and so is the priority unless the
    PRIORITY flag is set. *)
Theorem Frame_Read_keeps_header (f f' : Frame) (bs rest : list Z) :
  Frame_Read f bs = Ok (f', rest) ->
  kind_of f' = kind_of f
  /\ Frame_Header f' = Frame_Header f
  /\ match f, f' with
     | HeadersF h, HeadersF h' =>
         HeadersFrame.Headers h' = HeadersFrame.Headers h
         /\ (has_flag (HeadersFrame.Header h) PRIORITY = false ->
             HeadersFrame.Priority h' = HeadersFrame.Priority h)
     | _, _ => True
     end.
Proof.
  destruct f as [f | f | f | f | f | f]; cbn [Frame_Read]; intros H;
    bind_inv H; unfold ret in H; injection H as <- <-;
    cbn [kind_of Frame_Header].
  - unfold DataFrame.Read in Hm. repeat bind_inv Hm.
    unfold ret in Hm. injection Hm as <- <-. repeat split.
  - unfold HeadersFrame.Read, has_flag in *.
    bind_inv Hm. destruct a0 as [padLen frameLen].
    bind_inv Hm. destruct a0 as [priority frameLen'].
    repeat bind_inv Hm. unfold ret in Hm. injection Hm as <- <-.
    cbn [HeadersFrame.Header HeadersFrame.Headers HeadersFrame.Priority].
    repeat split. intros Hp. rewrite Hp in Hm1.
    unfold ret in Hm1. now injection Hm1 as <- _ _.
  - unfold RstStreamFrame.Read in Hm. repeat bind_inv Hm.
    unfold ret in Hm. injection Hm as <- <-. repeat split.
  - unfold SettingsFrame.Read in Hm. repeat bind_inv Hm.
    unfold ret in Hm. injection Hm as <- <-. repeat split.
  - unfold GoAwayFrame.Read in Hm. repeat bind_inv Hm.
    unfold ret in Hm. injection Hm as <- <-. repeat split.
  - unfold WindowUpdateFrame.Read in Hm. repeat bind_inv Hm.
    unfold ret in Hm. injection Hm as <- <-. repeat split.
Qed.

(** X20 on a padded HEADERS frame. *)
Lemma Frame_Read_keeps_header_witness :
  Frame_Read (HeadersF sample_overpadded_headers) [1; 0xaa; 0]
  = Ok (HeadersF (HeadersFrame.mk
                    (HeadersFrame.Header sample_overpadded_headers) 0 [0xaa] []),
        [])
  /\ kind_of (HeadersF (HeadersFrame.mk
                          (HeadersFrame.Header sample_overpadded_headers)
                          0 [0xaa] []))
     = kind_of (HeadersF sample_overpadded_headers)
  /\ Frame_Header (HeadersF (HeadersFrame.mk
                               (HeadersFrame.Header sample_overpadded_headers)
                               0 [0xaa] []))
     = Frame_Header (HeadersF sample_overpadded_headers)
  /\ (HeadersFrame.Headers
        (HeadersFrame.mk (HeadersFrame.Header sample_overpadded_headers)
                         0 [0xaa] [])
      = HeadersFrame.Headers sample_overpadded_headers
      /\ (has_flag (HeadersFrame.Header sample_overpadded_headers) PRIORITY
          = false ->
          HeadersFrame.Priority
            (HeadersFrame.mk (HeadersFrame.Header sample_overpadded_headers)
                             0 [0xaa] [])
          = HeadersFrame.Priority sample_overpadded_headers)).
Proof.
  split; [ reflexivity | ].
  apply (Frame_Read_keeps_header (HeadersF sample_overpadded_headers)
           (HeadersF (HeadersFrame.mk
                        (HeadersFrame.Header sample_overpadded_headers)
                        0 [0xaa] []))
           [1; 0xaa; 0] []).
  reflexivity.
Defined.
